(** * Push board: the push worker and the task store, verified

    A shallow embedding of [src/workers.py] (the [PushWorker] thread) and of
    the store and orchestration code of [src/ui.py] ([PersistantList],
    [PushBoardTable], [Form]), followed by the properties of the
    specification that were checked against them. *)

From Stdlib Require Import Ascii String.
From stdpp Require Import base strings list gmap.

(** ** Python control flow

    A statement runs over a state [S]; it completes normally with a value,
    executes [return], or raises.  The state survives all three. *)

Module Py.

Inductive exn :=
| AttributeError | KeyError | IndexError | ValueError
| JSONDecodeError
| HandlerError.          (* raised by the external device handler *)

Inductive completion (A : Type) :=
| Normal (a : A)
| Return
| Raise (e : exn).
Arguments Normal {A} a.
Arguments Return {A}.
Arguments Raise {A} e.

Definition py (S A : Type) : Type := S → completion A * S.

Definition pure {S A} (a : A) : py S A := λ s, (Normal a, s).
Definition bind {S A B} (m : py S A) (k : A → py S B) : py S B :=
  λ s, match m s with
       | (Normal a, s') => k a s'
       | (Return, s') => (Return, s')
       | (Raise e, s') => (Raise e, s')
       end.
Definition return_ {S A} : py S A := λ s, (Return, s).
Definition raise {S A} (e : exn) : py S A := λ s, (Raise e, s).
Definition get {S} : py S S := λ s, (Normal s, s).
Definition modify {S} (f : S → S) : py S unit := λ s, (Normal (), f s).

(** [try: body / except: handler] with a bare [except]. *)
Definition try_except {S A} (body : py S A) (handler : py S A) : py S A :=
  λ s, match body s with
       | (Raise _, s') => handler s'
       | r => r
       end.

(** A function body: [return] ends the call, falling off the end too. *)
Definition def {S} (body : py S unit) : py S unit :=
  λ s, match body s with
       | (Return, s') => (Normal (), s')
       | r => r
       end.

(** [for x in xs: body x] *)
Fixpoint for_ {S A} (xs : list A) (body : A → py S unit) : py S unit :=
  match xs with
  | [] => pure ()
  | x :: xs' => bind (body x) (λ _, for_ xs' body)
  end.

(** Python lists, indexed by non-negative positions. *)
Definition getitem {S A} (l : list A) (i : nat) : py S A :=
  match l !! i with
  | Some x => pure x
  | None => raise IndexError
  end.

(** [list.insert(i, x)]: before position [i], at the end when [i] is
    past it. *)
Definition list_insert_at {A} (i : nat) (x : A) (l : list A) : list A :=
  take i l ++ x :: drop i l.

(** [list.remove(x)]: the first element equal to [x] goes. *)
Fixpoint list_remove `{EqDecision A} (x : A) (l : list A) : option (list A) :=
  match l with
  | [] => None
  | y :: l' => if decide (y = x) then Some l'
               else cons y <$> list_remove x l'
  end.

(** [list.pop(i)] *)
Definition list_pop {A} (i : nat) (l : list A) : option (list A) :=
  if decide (i < length l) then Some (delete i l) else None.

End Py.

Import Py.

Declare Scope py_scope.
Delimit Scope py_scope with py.
Notation "x <- c1 ;; c2" := (bind c1 (λ x, c2))
  (at level 100, c1 at next level, right associativity) : py_scope.
Notation "c1 ;; c2" := (bind c1 (λ _, c2))
  (at level 100, right associativity) : py_scope.

(** ** src/workers.py *)

Module Workers.

(** The status strings the program uses. *)
Inductive status := Pending | Connecting | Pushing | Pushed | Aborted | Failed.

Global Instance status_eq_dec : EqDecision status.
Proof. solve_decision. Defined.

Definition terminal (s : status) : bool :=
  match s with Pushed | Aborted | Failed => true | _ => false end.

(** The [proxy] dict handed to the handler. *)
Record proxy := { hostname : string; username : string; password : string }.

(** What a run does that is visible outside the thread. *)
Inductive event :=
| Emit (s : status)                                  (* status_signal.emit *)
| LogInfo (msg : string)                             (* logger.info *)
| LogException                                       (* logger.exception *)
| GenericHandler (host user pass : string) (p : option proxy)
| SendConfigSet (cfg : string)                       (* handler.send_config_set *)
| SaveConfig                                         (* handler.save_config *)
| Close.                                             (* handler.close *)

Record PushWorker := {
  target : string;
  config : string;
  save : bool;
  session : option (gmap string string);
  _abort_requested : bool;
}.

Definition __init__ (target config : string) (save : bool)
    (session : option (gmap string string)) : PushWorker :=
  {| target := target; config := config; save := save; session := session;
     _abort_requested := false |}.

(** The thread's view: its worker object and what it has done so far. *)
Record thread := { self : PushWorker; trace : list event }.

Definition record (e : event) : py thread unit :=
  modify (λ t, {| self := self t; trace := trace t ++ [e] |}).

(** [PushWorker.abort], called from the GUI thread. *)
Definition abort (w : PushWorker) : PushWorker :=
  {| target := target w; config := config w; save := save w;
     session := session w; _abort_requested := true |}.

Definition abort_call : py thread unit :=
  (t <- get ;;
   record (LogInfo ("Abort requested for target: " +:+ target (self t))) ;;
   modify (λ t, {| self := abort (self t); trace := trace t |}))%py.

(** The device and the GUI thread, as one run of the worker meets them:
    whether each handler call succeeds, and at which of the worker's
    scheduling points (before its first, second and third read of the
    flag, and after the third) the GUI thread calls [abort]. *)
Record environment := {
  connect_ok : bool;
  send_ok : bool;
  save_ok : bool;
  close_ok : bool;
  abort_before : nat → bool;
}.

Section Run.
Context (env : environment).

Definition yield (k : nat) : py thread unit :=
  if abort_before env k then abort_call else pure ().

Definition emit (s : status) : py thread unit := record (Emit s).

Definition external (ok : bool) (e : event) : py thread unit :=
  (record e ;; if ok then pure () else raise HandlerError)%py.

(** [self.session.get(key)] *)
Definition session_get (key : string) : py thread (option string) :=
  (t <- get ;;
   match session (self t) with
   | None => raise AttributeError
   | Some d => pure (d !! key)
   end)%py.

(** [self.session[key]] *)
Definition session_item (key : string) : py thread string :=
  (t <- get ;;
   match session (self t) with
   | None => raise AttributeError
   | Some d => match d !! key with
               | Some v => pure v
               | None => raise KeyError
               end
   end)%py.

Definition truthy (v : option string) : bool :=
  match v with
  | Some (String _ _) => true
  | _ => false
  end.

Definition abort_requested : py thread bool :=
  (t <- get ;; pure (_abort_requested (self t)))%py.

Definition run_body : py thread unit :=
  (yield 0 ;;
   a <- abort_requested ;;
   (if a then emit Aborted ;; return_ else pure ()) ;;
   t <- get ;;
   record (LogInfo ("Attempting to push config to " +:+ target (self t))) ;;
   emit Connecting ;;
   ip <- session_get "JUMPHOST_IP" ;;
   proxy <- (if truthy ip then
               h <- session_item "JUMPHOST_IP" ;;
               u <- session_item "JUMPHOST_USERNAME" ;;
               p <- session_item "JUMPHOST_PASSWORD" ;;
               pure (Some {| hostname := h; username := u; password := p |})
             else pure None) ;;
   user <- session_item "NETWORK_USERNAME" ;;
   pass <- session_item "NETWORK_PASSWORD" ;;
   external (connect_ok env)
            (GenericHandler (target (self t)) user pass proxy) ;;
   yield 1 ;;
   a <- abort_requested ;;
   (if a then
      emit Aborted ;; external (close_ok env) Close ;; return_
    else pure ()) ;;
   record (LogInfo ("Connected to " +:+ target (self t) +:+ " successfully")) ;;
   emit Pushing ;;
   external (send_ok env) (SendConfigSet (config (self t))) ;;
   (if save (self t) then external (save_ok env) SaveConfig else pure ()) ;;
   yield 2 ;;
   a <- abort_requested ;;
   (if a then emit Aborted else emit Pushed) ;;
   yield 3 ;;
   external (close_ok env) Close ;;
   record (LogInfo ("Configuration pushed to " +:+ target (self t)
                      +:+ " successfully")))%py.

Definition run : py thread unit :=
  def (try_except run_body (record LogException ;; emit Failed)%py).
End Run.

(** A worker started on a fresh thread. *)
Definition start (env : environment) (w : PushWorker) : completion unit * thread :=
  run env {| self := w; trace := [] |}.

Definition statuses (tr : list event) : list status :=
  omap (λ e, match e with Emit s => Some s | _ => None end) tr.

Definition emitted (env : environment) (w : PushWorker) : list status :=
  statuses (trace (start env w).2).

(** *** What the specification says of a run, as predicates *)

(** The life of a run as the specification draws it: [Connecting],
    [Pushing], cut short anywhere, then one terminal status. *)
Definition lifecycle (l : list status) : bool :=
  match l with
  | [t] | [Connecting; t] | [Connecting; Pushing; t] => terminal t
  | _ => false
  end.

(** What was emitted after the first terminal status. *)
Fixpoint after_terminal (l : list status) : list status :=
  match l with
  | [] => []
  | s :: l' => if terminal s then l' else after_terminal l'
  end.

Definition terminals (l : list status) : list status :=
  filter (λ s, terminal s = true) l.

Definition disciplined (l : list status) : Prop :=
  lifecycle l = true ∧ NoDup l ∧ after_terminal l = [] ∧ length (terminals l) ≤ 1.

Definition set_abort_before (k : nat) (b : bool) (env : environment) : environment :=
  {| connect_ok := connect_ok env; send_ok := send_ok env; save_ok := save_ok env;
     close_ok := close_ok env;
     abort_before := λ n, if n =? k then b else abort_before env n |}.

Definition is_connect (e : event) : bool :=
  match e with GenericHandler _ _ _ _ => true | _ => false end.

(** Whether the session holds what [run] reads from it. *)
Definition resolves (w : PushWorker) : bool :=
  match session w with
  | None => false
  | Some d =>
      (if truthy (d !! "JUMPHOST_IP")
       then bool_decide (is_Some (d !! "JUMPHOST_USERNAME"))
            && bool_decide (is_Some (d !! "JUMPHOST_PASSWORD"))
       else true)
      && bool_decide (is_Some (d !! "NETWORK_USERNAME"))
      && bool_decide (is_Some (d !! "NETWORK_PASSWORD"))
  end.

(** The statuses of a run, read off the decisions it meets. *)
Definition outline (env : environment) (w : PushWorker) : list status :=
  let after_close := if close_ok env then [] else [Failed] in
  if _abort_requested w || abort_before env 0 then [Aborted]
  else Connecting ::
    if negb (resolves w && connect_ok env) then [Failed]
    else if abort_before env 1 then Aborted :: after_close
    else Pushing ::
      if negb (send_ok env && (negb (save w) || save_ok env)) then [Failed]
      else (if abort_before env 2 then Aborted else Pushed) :: after_close.

(** *** A task and devices to run it against *)

Definition credentials : gmap string string :=
  <["NETWORK_USERNAME" := "admin"]> (<["NETWORK_PASSWORD" := "secret"]> ∅).

Definition r1 : PushWorker :=
  __init__ "r1.example.com" "no shutdown" true (Some credentials).

Definition device (connect send save close : bool) (aborts : list nat) : environment :=
  {| connect_ok := connect; send_ok := send; save_ok := save; close_ok := close;
     abort_before := λ k, bool_decide (k ∈ aborts) |}.

(** *** The calls a run makes on the device *)

Definition is_handler_call (e : event) : bool :=
  match e with
  | GenericHandler _ _ _ _ | SendConfigSet _ | SaveConfig | Close => true
  | _ => false
  end.

Definition handler_calls (tr : list event) : list event :=
  filter (λ e, is_handler_call e = true) tr.

Definition is_close (e : event) : bool :=
  match e with Close => true | _ => false end.

(** How often the session was closed. *)
Definition closes (tr : list event) : nat :=
  length (filter (λ e, is_close e = true) tr).

Definition is_send (e : event) : bool :=
  match e with SendConfigSet _ => true | _ => false end.

(** The constructor call the worker makes, when its session holds every
    key it reads on the way there. *)
Definition connection (w : PushWorker) : option event :=
  d ← session w;
  px ← (if truthy (d !! "JUMPHOST_IP")
        then h ← d !! "JUMPHOST_IP";
             u ← d !! "JUMPHOST_USERNAME";
             p ← d !! "JUMPHOST_PASSWORD";
             Some (Some {| hostname := h; username := u; password := p |})
        else Some None);
  user ← d !! "NETWORK_USERNAME";
  pass ← d !! "NETWORK_PASSWORD";
  Some (GenericHandler (target w) user pass px).

(** The handler calls of a run, read off the decisions it meets. *)
Definition call_outline (env : environment) (w : PushWorker) : list event :=
  if _abort_requested w || abort_before env 0 then []
  else match connection w with
       | None => []
       | Some c =>
           c ::
           if negb (connect_ok env) then []
           else if abort_before env 1 then [Close]
           else SendConfigSet (config w) ::
                if negb (send_ok env) then []
                else if save w then
                       SaveConfig :: if save_ok env then [Close] else []
                     else [Close]
       end.

(** A session that goes through a jump host. *)
Definition via_jumphost : gmap string string :=
  <["JUMPHOST_IP" := "10.0.0.1"]> (<["JUMPHOST_USERNAME" := "jump"]>
    (<["JUMPHOST_PASSWORD" := "hop"]> credentials)).

Definition r1_via_jumphost : PushWorker :=
  __init__ "r1.example.com" "no shutdown" true (Some via_jumphost).

End Workers.

(** ** src/ui.py *)

Module Ui.

(** The [config_data] dict of a task: its four keys, in the order
    [add_row] creates them. *)
Record config_data := {
  target : string;
  config : string;
  save : bool;
  status : Workers.status;
}.

Global Instance config_data_eq_dec : EqDecision config_data.
Proof. solve_decision. Defined.

(** *** The [json] module, on lists of [config_data]

    Text is written onto the rest of the document [k].  Characters are
    the code points below 256. *)

Definition lit (s k : string) : string := s +:+ k.
Definition nl (k : string) : string := String "010" k.
Fixpoint spaces (n : nat) (k : string) : string :=
  match n with
  | 0 => k
  | S n' => String " " (spaces n' k)
  end.

Definition hex_digit (n : nat) : ascii :=
  match n with
  | 0 => "0" | 1 => "1" | 2 => "2" | 3 => "3" | 4 => "4" | 5 => "5"
  | 6 => "6" | 7 => "7" | 8 => "8" | 9 => "9" | 10 => "a" | 11 => "b"
  | 12 => "c" | 13 => "d" | 14 => "e" | _ => "f"
  end%char.

(** The encoder's [ESCAPE_ASCII]: quote and backslash, and every character
    outside space .. tilde. *)
Definition escape_char (c : ascii) (k : string) : string :=
  if (c =? "034")%char then String "\" (String "034" k)
  else if (c =? "\")%char then String "\" (String "\" k)
  else if (c =? "010")%char then String "\" (String "n" k)
  else if (c =? "013")%char then String "\" (String "r" k)
  else if (c =? "009")%char then String "\" (String "t" k)
  else if (c =? "008")%char then String "\" (String "b" k)
  else if (c =? "012")%char then String "\" (String "f" k)
  else
    let n := nat_of_ascii c in
    if (n <? 32) || (126 <? n) then
      lit "\u00" (String (hex_digit (n / 16)) (String (hex_digit (n mod 16)) k))
    else String c k.

Fixpoint escape (s : string) (k : string) : string :=
  match s with
  | EmptyString => k
  | String c s' => escape_char c (escape s' k)
  end.

Definition dump_str (s : string) (k : string) : string :=
  String "034" (escape s (String "034" k)).

Definition dump_bool (b : bool) : string → string :=
  lit (if b then "true" else "false").

Definition status_name (st : Workers.status) : string :=
  match st with
  | Workers.Pending => "Pending"
  | Workers.Connecting => "Connecting"
  | Workers.Pushing => "Pushing"
  | Workers.Pushed => "Pushed"
  | Workers.Aborted => "Aborted"
  | Workers.Failed => "Failed"
  end.

Definition dump_member (key : string) (value : string → string) : string → string :=
  nl ∘ spaces 8 ∘ dump_str key ∘ lit ": " ∘ value.

Definition dump_record (r : config_data) : string → string :=
  lit "{"
  ∘ dump_member "target" (dump_str (target r)) ∘ lit ","
  ∘ dump_member "config" (dump_str (config r)) ∘ lit ","
  ∘ dump_member "save" (dump_bool (save r)) ∘ lit ","
  ∘ dump_member "status" (dump_str (status_name (status r)))
  ∘ nl ∘ spaces 4 ∘ lit "}".

Fixpoint dump_rest (l : list config_data) : string → string :=
  match l with
  | [] => nl ∘ lit "]"
  | r :: l' => lit "," ∘ nl ∘ spaces 4 ∘ dump_record r ∘ dump_rest l'
  end.

(** [json.dump(l, f, indent=4)] *)
Definition json_dump (l : list config_data) : string :=
  match l with
  | [] => "[]"
  | r :: l' => (lit "[" ∘ nl ∘ spaces 4 ∘ dump_record r ∘ dump_rest l') EmptyString
  end.

Definition is_ws (c : ascii) : bool :=
  ((c =? " ") || (c =? "010") || (c =? "013") || (c =? "009"))%char.

Fixpoint skip_ws (s : string) : string :=
  match s with
  | EmptyString => s
  | String c r => if is_ws c then skip_ws r else s
  end.

Definition expect (c : ascii) (s : string) : option string :=
  match skip_ws s with
  | String d r => if (d =? c)%char then Some r else None
  | EmptyString => None
  end.

Fixpoint strip_prefix (p s : string) : option string :=
  match p with
  | EmptyString => Some s
  | String c p' =>
      match s with
      | String d s' => if (c =? d)%char then strip_prefix p' s' else None
      | EmptyString => None
      end
  end.

Definition hex_value (c : ascii) : option nat :=
  let n := nat_of_ascii c in
  if (48 <=? n) && (n <=? 57) then Some (n - 48)
  else if (97 <=? n) && (n <=? 102) then Some (n - 87)
  else if (65 <=? n) && (n <=? 70) then Some (n - 55)
  else None.

Definition hex4 (h1 h2 h3 h4 : ascii) : option nat :=
  a ← hex_value h1; b ← hex_value h2; c ← hex_value h3; d ← hex_value h4;
  Some (((a * 16 + b) * 16 + c) * 16 + d).

(** The decoder's [BACKSLASH] table. *)
Definition BACKSLASH (c : ascii) : option ascii :=
  if (c =? "034")%char then Some "034"%char
  else if (c =? "\")%char then Some "\"%char
  else if (c =? "/")%char then Some "/"%char
  else if (c =? "b")%char then Some "008"%char
  else if (c =? "f")%char then Some "012"%char
  else if (c =? "n")%char then Some "010"%char
  else if (c =? "r")%char then Some "013"%char
  else if (c =? "t")%char then Some "009"%char
  else None.

Definition prepend (c : ascii) (o : option (string * string)) : option (string * string) :=
  '(s, r) ← o; Some (String c s, r).

(** The text of a string after its opening quote, and what follows it. *)
Fixpoint scanstring (s : string) : option (string * string) :=
  match s with
  | EmptyString => None
  | String c r =>
      if (c =? "034")%char then Some (EmptyString, r)
      else if (c =? "\")%char then
        match r with
        | EmptyString => None
        | String e r1 =>
            if (e =? "u")%char then
              match r1 with
              | String h1 (String h2 (String h3 (String h4 r2))) =>
                  match hex4 h1 h2 h3 h4 with
                  | Some n =>
                      if n <? 256 then prepend (ascii_of_nat n) (scanstring r2)
                      else None
                  | None => None
                  end
              | _ => None
              end
            else
              match BACKSLASH e with
              | Some d => prepend d (scanstring r1)
              | None => None
              end
        end
      else if nat_of_ascii c <? 32 then None
      else prepend c (scanstring r)
  end.

Definition parse_string (s : string) : option (string * string) :=
  expect "034" s ≫= scanstring.

Definition parse_bool (s : string) : option (bool * string) :=
  match strip_prefix "true" (skip_ws s) with
  | Some r => Some (true, r)
  | None => r ← strip_prefix "false" (skip_ws s); Some (false, r)
  end.

Definition status_of_name (n : string) : option Workers.status :=
  if String.eqb n "Pending" then Some Workers.Pending
  else if String.eqb n "Connecting" then Some Workers.Connecting
  else if String.eqb n "Pushing" then Some Workers.Pushing
  else if String.eqb n "Pushed" then Some Workers.Pushed
  else if String.eqb n "Aborted" then Some Workers.Aborted
  else if String.eqb n "Failed" then Some Workers.Failed
  else None.

Definition parse_status (s : string) : option (Workers.status * string) :=
  '(n, r) ← parse_string s; st ← status_of_name n; Some (st, r).

Definition parse_member {A} (key : string) (value : string → option (A * string))
    (s : string) : option (A * string) :=
  '(k, r) ← parse_string s;
  if String.eqb k key then expect ":" r ≫= value else None.

Definition parse_record (s : string) : option (config_data * string) :=
  r ← expect "{" s;
  '(t, r) ← parse_member "target" parse_string r;
  r ← expect "," r;
  '(c, r) ← parse_member "config" parse_string r;
  r ← expect "," r;
  '(sv, r) ← parse_member "save" parse_bool r;
  r ← expect "," r;
  '(st, r) ← parse_member "status" parse_status r;
  r ← expect "}" r;
  Some ({| target := t; config := c; save := sv; status := st |}, r).

Definition at_end (s : string) : bool :=
  match skip_ws s with EmptyString => true | _ => false end.

Fixpoint parse_rest (fuel : nat) (s : string) : option (list config_data) :=
  match fuel with
  | 0 => None
  | S fuel' =>
      match skip_ws s with
      | String c r =>
          if (c =? "]")%char then (if at_end r then Some [] else None)
          else if (c =? ",")%char then
            '(x, r') ← parse_record r; l ← parse_rest fuel' r'; Some (x :: l)
          else None
      | EmptyString => None
      end
  end.

(** [json.load(f)], for a document that is a list of such records. *)
Definition json_load (s : string) : option (list config_data) :=
  r ← expect "[" s;
  match expect "]" r with
  | Some r' => if at_end r' then Some [] else None
  | None => '(x, r') ← parse_record r; l ← parse_rest (String.length s) r'; Some (x :: l)
  end.

(** *** [PersistantList]: the list and the file at [filepath] *)

Record PersistantList := {
  items : list config_data;
  disk : option string;          (* the file's text, when the file exists *)
}.

Definition set_items (l : list config_data) : py PersistantList unit :=
  modify (λ s, {| items := l; disk := disk s |}).

Definition dump : py PersistantList unit :=
  modify (λ s, {| items := items s; disk := Some (json_dump (items s)) |}).

Definition load : py PersistantList unit :=
  (s <- get ;;
   match disk s with
   | Some doc =>
       match json_load doc with
       | Some data => set_items (items s ++ data)
       | None => raise JSONDecodeError
       end
   | None => pure ()
   end)%py.

(** [PersistantList(filepath)] over the file system as it is found. *)
Definition PersistantList_init (found : option string)
    : completion unit * PersistantList :=
  (match found with Some _ => load | None => dump end)
    {| items := []; disk := found |}.

Definition __setitem__ (index : nat) (value : config_data) : py PersistantList unit :=
  (s <- get ;;
   _ <- getitem (items s) index ;;
   set_items (<[index := value]> (items s)) ;;
   dump)%py.

Definition append (item : config_data) : py PersistantList unit :=
  (s <- get ;; set_items (items s ++ [item]) ;; dump)%py.

Definition remove (item : config_data) : py PersistantList unit :=
  (s <- get ;;
   match list_remove item (items s) with
   | Some l => set_items l ;; dump
   | None => raise ValueError
   end)%py.

Definition clear : py PersistantList unit :=
  (set_items [] ;; dump)%py.

(** *** [PushBoardTable] and [Form] *)

(** The check box of a row (column 3) and the row its [stateChanged]
    handler was given when the row was inserted.  The other cells only
    show text. *)
Record checkbox := { isChecked : bool; row : nat }.

(** A [PushWorker] that was created: the object, the position its
    [status_signal] is connected to, and whether its thread runs. *)
Record QThread := {
  worker : Workers.PushWorker;
  slot : nat;
  isRunning : bool;
}.

Record Form := {
  session : option (gmap string string);
  data : PersistantList;             (* pushboard_table.data *)
  workers : list (option nat);       (* pushboard_table.workers: None or a worker *)
  cellWidget : list checkbox;        (* pushboard_table, column 3, row by row *)
  threads : list QThread;            (* the workers created so far; a worker is
                                        named by its place here *)
}.

Definition on_data {A} (m : py PersistantList A) : py Form A :=
  λ f, let '(r, d) := m (data f) in
       (r, {| session := session f; data := d; workers := workers f;
              cellWidget := cellWidget f; threads := threads f |}).

Definition set_workers (l : list (option nat)) : py Form unit :=
  modify (λ f, {| session := session f; data := data f; workers := l;
                  cellWidget := cellWidget f; threads := threads f |}).

Definition set_cellWidget (l : list checkbox) : py Form unit :=
  modify (λ f, {| session := session f; data := data f; workers := workers f;
                  cellWidget := l; threads := threads f |}).

Definition set_threads (l : list QThread) : py Form unit :=
  modify (λ f, {| session := session f; data := data f; workers := workers f;
                  cellWidget := cellWidget f; threads := l |}).

Definition _insert_row (cd : config_data) : py Form unit :=
  (f <- get ;;
   let row_idx := length (cellWidget f) in
   set_cellWidget (cellWidget f ++ [{| isChecked := save cd; row := row_idx |}]))%py.

Definition load_rows : py Form unit :=
  (set_cellWidget [] ;;
   f <- get ;;
   for_ (items (data f)) _insert_row)%py.

(** [Form(session=...)] with the table it builds. *)
Definition Form_init (sess : option (gmap string string)) (found : option string)
    : completion unit * Form :=
  let '(r, d) := PersistantList_init found in
  let f := {| session := sess; data := d; workers := []; cellWidget := [];
              threads := [] |} in
  match r with
  | Normal _ => load_rows f
  | _ => (r, f)
  end.

Definition on_checkbox_changed (state : bool) (row : nat) : py Form unit :=
  (f <- get ;;
   cd <- getitem (items (data f)) row ;;
   on_data (set_items (<[row := {| target := target cd; config := config cd;
                                   save := state; status := status cd |}]>
                         (items (data f)))) ;;
   on_data dump)%py.

(** The user sets the check box shown at position [p]. *)
Definition stateChanged (p : nat) (state : bool) : py Form unit :=
  (f <- get ;;
   match cellWidget f !! p with
   | Some cb =>
       set_cellWidget (<[p := {| isChecked := state; row := row cb |}]> (cellWidget f)) ;;
       on_checkbox_changed state (row cb)
   | None => pure ()
   end)%py.

Definition add_row (target config : string) (status : Workers.status)
    (save : bool) : py Form unit :=
  (let config_data := {| target := target; config := config; save := save;
                         status := status |} in
   _insert_row config_data ;;
   on_data (append config_data) ;;
   f <- get ;;
   set_workers (workers f ++ [None]))%py.

(** [selected] lists the rows of [selectedIndexes()]. *)
Definition delete_row (selected : list nat) : py Form unit :=
  (row_index <- getitem selected 0 ;;
   f <- get ;;
   set_cellWidget (delete row_index (cellWidget f)) ;;
   if items (data f) is [] then pure ()
   else
     cd <- getitem (items (data f)) row_index ;;
     on_data (remove cd) ;;
     match list_pop row_index (workers f) with
     | Some l => set_workers l
     | None => raise IndexError
     end)%py.

Definition update_row (row_index : nat) (cd : config_data) : py Form unit :=
  (f <- get ;;
   (if decide (row_index < length (cellWidget f)) then pure ()
    else raise AttributeError) ;;
   if items (data f) is [] then pure ()
   else on_data (__setitem__ row_index cd))%py.

Definition clear_all : py Form unit :=
  (set_cellWidget [] ;;
   on_data clear ;;
   set_workers [])%py.

Definition _push (index : nat) (target config : string) : py Form unit :=
  def
    ((if bool_decide (target = EmptyString) || bool_decide (config = EmptyString)
      then return_ else pure ()) ;;
     f <- get ;;
     let save := match cellWidget f !! index with
                 | Some cb => isChecked cb
                 | None => false
                 end in
     let worker := Workers.__init__ target config save (session f) in
     let handle := length (threads f) in
     set_threads (threads f ++ [{| worker := worker; slot := index;
                                   isRunning := true |}]) ;;
     set_workers (list_insert_at index (Some handle) (workers f)))%py.

Definition push_if_not_pushed (index : nat) (cd : config_data) : py Form unit :=
  if decide (status cd ≠ Workers.Pushed)
  then _push index (target cd) (config cd)
  else pure ().

Definition push_all : py Form unit :=
  (f <- get ;;
   for_ (imap pair (items (data f))) (λ '(index, cd), push_if_not_pushed index cd))%py.

(** [rows] is [set(row.row() for row in selected_rows)] in the order the
    loop visits it. *)
Definition push_selected (rows : list nat) : py Form unit :=
  for_ rows (λ index,
    f <- get ;;
    cd <- getitem (items (data f)) index ;;
    push_if_not_pushed index cd)%py.

(** [worker.abort()] when [worker and worker.isRunning()]. *)
Definition abort_if_running (w : option nat) : py Form unit :=
  (f <- get ;;
   match w with
   | Some h =>
       match threads f !! h with
       | Some th =>
           if isRunning th then
             set_threads (<[h := {| worker := Workers.abort (worker th);
                                    slot := slot th; isRunning := true |}]>
                            (threads f))
           else pure ()
       | None => pure ()
       end
   | None => pure ()
   end)%py.

Definition abort_all : py Form unit :=
  (f <- get ;; for_ (workers f) abort_if_running)%py.

Definition abort_selected (rows : list nat) : py Form unit :=
  for_ rows (λ index,
    f <- get ;;
    w <- getitem (workers f) index ;;
    abort_if_running w)%py.

Definition _update_status (index : nat) (st : Workers.status) : py Form unit :=
  (f <- get ;;
   cd <- getitem (items (data f)) index ;;
   let cd' := {| target := target cd; config := config cd; save := save cd;
                 status := st |} in
   on_data (set_items (<[index := cd']> (items (data f)))) ;;
   update_row index cd')%py.

(** A status emitted by worker [h] reaches the slot connected in [_push]. *)
Definition status_signal (h : nat) (st : Workers.status) : py Form unit :=
  (f <- get ;;
   match threads f !! h with
   | Some th => _update_status (slot th) st
   | None => pure ()
   end)%py.

(** The thread of worker [h] ends. *)
Definition finished (h : nat) : py Form unit :=
  (f <- get ;;
   match threads f !! h with
   | Some th => set_threads (<[h := {| worker := worker th; slot := slot th;
                                       isRunning := false |}]> (threads f))
   | None => pure ()
   end)%py.

(** Every piece of the writer only adds text in front of what follows. *)
Definition grows (f : string → string) : Prop :=
  ∀ k, String.length k ≤ String.length (f k).

(** *** The store's mutating calls, and reading the file back *)

Inductive mutation :=
| Append (item : config_data)
| SetItem (index : nat) (value : config_data)
| Remove (item : config_data)
| Clear.

Definition mutate (m : mutation) : py PersistantList unit :=
  match m with
  | Append item => append item
  | SetItem index value => __setitem__ index value
  | Remove item => remove item
  | Clear => clear
  end.

(** A new [PersistantList] over the file the store [s] wrote. *)
Definition reload (s : PersistantList) : completion unit * PersistantList :=
  PersistantList_init (disk s).

(** The file holds the dump of the list. *)
Definition persisted (s : PersistantList) : Prop :=
  disk s = Some (json_dump (items s)).

(** One handle for every task. *)
Definition paired (f : Form) : Prop :=
  length (items (data f)) = length (workers f).

(** *** Tasks as the data model has them, and the positions a push visits *)

Definition well_formed (cd : config_data) : Prop :=
  target cd ≠ EmptyString ∧ config cd ≠ EmptyString.

Definition needs_push (its : list config_data) (i : nat) : bool :=
  match its !! i with
  | Some cd => bool_decide (status cd ≠ Workers.Pushed)
  | None => false
  end.

Definition unpushed (its : list config_data) (rows : list nat) : list nat :=
  filter (λ i, needs_push its i = true) rows.

(** The positions the workers created so far are connected to. *)
Definition slots (f : Form) : list nat := slot <$> threads f.

(** *** What a push creates *)

(** The thread record [_push] creates at [index]: the worker is running,
    connected to [index], and has the row's check box as [save]. *)
Definition spawned (f : Form) (index : nat) (target config : string) : QThread :=
  {| worker := Workers.__init__ target config
                 (match cellWidget f !! index with
                  | Some cb => isChecked cb
                  | None => false
                  end) (session f);
     slot := index; isRunning := true |}.

(** The thread records for the positions of [rows] whose task is not
    [Pushed], in the order of [rows]. *)
Definition pushes (f : Form) (rows : list nat) : list QThread :=
  omap (λ i, (λ cd, spawned f i (target cd) (config cd)) <$> items (data f) !! i)
       (unpushed (items (data f)) rows).

(** [workers.insert(i, worker)] for each position of [rows] in turn, the
    workers being numbered from [h]. *)
Fixpoint insert_handles (h : nat) (rows : list nat) (ws : list (option nat))
    : list (option nat) :=
  match rows with
  | [] => ws
  | i :: rows' => insert_handles (S h) rows' (list_insert_at i (Some h) ws)
  end.

(** The form after the positions of [rows] whose task is not [Pushed] were
    pushed. *)
Definition pushed (f : Form) (rows : list nat) : Form :=
  {| session := session f; data := data f;
     workers := insert_handles (length (threads f))
                  (unpushed (items (data f)) rows) (workers f);
     cellWidget := cellWidget f;
     threads := threads f ++ pushes f rows |}.

(** *** Boards to try the operations on *)

Definition A : config_data :=
  {| target := "r1.example.com"; config := "no shutdown"; save := true;
     status := Workers.Pending |}.

Definition B : config_data :=
  {| target := "r2.example.com"; config := "no shutdown"; save := true;
     status := Workers.Pending |}.

Definition run_all (ops : list (py Form unit)) (f : Form) : Form :=
  (for_ ops id f).2.

Definition empty_board : Form := (Form_init None None).2.

Definition add (cd : config_data) : py Form unit :=
  add_row (target cd) (config cd) (status cd) (save cd).

(** *** The [str] methods the dialog, the import and the preview use *)

(** [str.isspace] of one character (code points below 256). *)
Definition isspace (c : ascii) : bool :=
  let n := nat_of_ascii c in
  (9 <=? n) && (n <=? 13) || (28 <=? n) && (n <=? 32) || (n =? 133) || (n =? 160).

Fixpoint lstrip (s : string) : string :=
  match s with
  | String c s' => if isspace c then lstrip s' else s
  | EmptyString => EmptyString
  end.

Fixpoint rstrip (s : string) : string :=
  match s with
  | String c s' =>
      match rstrip s' with
      | EmptyString => if isspace c then EmptyString else String c EmptyString
      | r => String c r
      end
  | EmptyString => EmptyString
  end.

(** [s.strip()] *)
Definition strip (s : string) : string := lstrip (rstrip s).

(** [s.split(sep)] for a separator of one character. *)
Fixpoint split (sep : ascii) (s : string) : list string :=
  match s with
  | EmptyString => [EmptyString]
  | String c s' =>
      if (c =? sep)%char then EmptyString :: split sep s'
      else match split sep s' with
           | w :: ws => String c w :: ws
           | [] => [String c EmptyString]
           end
  end.

(** [s.replace(old, new)] for [old] of one character. *)
Fixpoint replace (old : ascii) (new : string) (s : string) : string :=
  match s with
  | String c s' =>
      if (c =? old)%char then new +:+ replace old new s'
      else String c (replace old new s')
  | EmptyString => EmptyString
  end.

(** The slices [s[:n]] and [s[n:]]. *)
Fixpoint slice_to (n : nat) (s : string) : string :=
  match n, s with
  | S n', String c s' => String c (slice_to n' s')
  | _, _ => EmptyString
  end.

Fixpoint slice_from (n : nat) (s : string) : string :=
  match n, s with
  | S n', String _ s' => slice_from n' s'
  | _, _ => s
  end.

(** [s[-n:]] for [n] above zero. *)
Definition slice_last (n : nat) (s : string) : string :=
  slice_from (String.length s - n) s.

Definition _get_config_preview (config_text : string) : string :=
  let preview_config :=
    if 120 <? String.length config_text
    then slice_to 60 config_text +:+ "  ..  ..  ..  " +:+ slice_last 60 config_text
    else config_text in
  strip (replace "010" "\n" preview_config).

(** *** [AddConfigurationDialog.accept] and [Form.import_csv]

    [accept] is given the texts of the two input fields, [import_csv] the
    rows the reader yields from the chosen file.  The message boxes, the
    status label and the closing of the dialog are left out. *)

Definition accept (targets_text config_text : string) : py Form unit :=
  def
    (let targets := strip targets_text in
     let config := strip config_text in
     (if bool_decide (targets = EmptyString) || bool_decide (config = EmptyString)
      then return_ else pure ()) ;;
     let target_list := strip <$> split "," targets in
     for_ target_list (λ target,
       (if bool_decide (target = EmptyString) then return_ else pure ()) ;;
       add_row target config Workers.Pending true))%py.

Definition import_row (row : list string) : py Form unit :=
  match row with
  | r0 :: r1 :: _ =>
      let target := strip r0 in
      let config := strip r1 in
      if bool_decide (target = EmptyString) || bool_decide (config = EmptyString)
      then pure ()                                   (* continue *)
      else add_row target config Workers.Pending true
  | _ => pure ()                                     (* continue *)
  end.

Definition import_csv (csv_reader : list (list string)) : py Form unit :=
  try_except (for_ csv_reader import_row) (pure ()).

(** *** What the user and the workers do to a form *)

Inductive gui_event :=
| Accept (targets_text config_text : string)
| ImportCsv (csv_reader : list (list string))
| DeleteRow (selected : list nat)
| ClearAll
| PushAll
| PushSelected (rows : list nat)
| AbortAll
| AbortSelected (rows : list nat)
| StateChanged (p : nat) (state : bool)
| StatusSignal (h : nat) (st : Workers.status)
| Finished (h : nat).

Definition handle (e : gui_event) : py Form unit :=
  match e with
  | Accept targets_text config_text => accept targets_text config_text
  | ImportCsv csv_reader => import_csv csv_reader
  | DeleteRow selected => delete_row selected
  | ClearAll => clear_all
  | PushAll => push_all
  | PushSelected rows => push_selected rows
  | AbortAll => abort_all
  | AbortSelected rows => abort_selected rows
  | StateChanged p state => stateChanged p state
  | StatusSignal h st => status_signal h st
  | Finished h => finished h
  end.


(** One table row for every task. *)
Definition mirrored (f : Form) : Prop :=
  length (cellWidget f) = length (items (data f)).

(** The file reads back as the list. *)
Definition in_sync (s : PersistantList) : Prop :=
  disk s ≫= json_load = Some (items s).



(** The task [add_row] makes of a target and a configuration. *)
Definition pending (config target : string) : config_data :=
  {| target := target; config := config; save := true; status := Workers.Pending |}.

Definition row_task (row : list string) : option config_data :=
  match row with
  | r0 :: r1 :: _ =>
      if bool_decide (strip r0 = EmptyString) || bool_decide (strip r1 = EmptyString)
      then None else Some (pending (strip r1) (strip r0))
  | _ => None
  end.

Definition box (i : nat) (cd : config_data) : checkbox :=
  {| isChecked := save cd; row := i |}.

(** The thread after [abort_if_running] reached it. *)
Definition aborted (th : QThread) : QThread :=
  if isRunning th
  then {| worker := Workers.abort (worker th); slot := slot th; isRunning := true |}
  else th.

(** The leading targets of a list that are not empty. *)
Fixpoint leading (targets : list string) : list string :=
  match targets with
  | t :: ts => if bool_decide (t = EmptyString) then [] else t :: leading ts
  | [] => []
  end.

(** The form after [add_row] was called for each of the tasks [new]. *)
Definition added (new : list config_data) (f : Form) : Form :=
  if new is [] then f
  else
    {| session := session f;
       data := {| items := items (data f) ++ new;
                  disk := Some (json_dump (items (data f) ++ new)) |};
       workers := workers f ++ replicate (length new) None;
       cellWidget := cellWidget f
                     ++ imap (box ∘ Nat.add (length (cellWidget f))) new;
       threads := threads f |}.

(** [c in s] *)
Fixpoint contains (c : ascii) (s : string) : bool :=
  match s with
  | String c' s' => (c' =? c)%char || contains c s'
  | EmptyString => false
  end.

Definition set_save (state : bool) (cd : config_data) : config_data :=
  {| target := target cd; config := config cd; save := state; status := status cd |}.

Definition set_status (st : Workers.status) (cd : config_data) : config_data :=
  {| target := target cd; config := config cd; save := save cd; status := st |}.

End Ui.

(** * Properties *)

Import Workers.

(** ** Reasoning about a run: one case per decision, in program order *)

Ltac run_unfold :=
  cbv [emitted start run run_body def try_except bind pure return_ raise get modify
       yield emit external record abort_call abort_requested session_get session_item].

Ltac split_on x :=
  match goal with
  | |- context [if x then _ else _] => destruct x eqn:?
  | |- context [match x with Some _ => _ | None => _ end] => destruct x as [?|] eqn:?
  | |- context [truthy x] => destruct x as [[|??]|] eqn:?
  end.

Ltac run_next co so sv cl ab sa se fl :=
  first
  [ split_on (ab 0) | split_on fl | split_on se
  | match goal with |- context [truthy (?d !! ?k)] => split_on (d !! k) end
  | match goal with |- context [match ?d !! ?k with _ => _ end] => split_on (d !! k) end
  | split_on co | split_on (ab 1) | split_on so | split_on sa | split_on sv
  | split_on (ab 2) | split_on (ab 3) | split_on cl ].

Ltac run_cases env w :=
  let co := fresh "co" in let so := fresh "so" in let sv := fresh "sv" in
  let cl := fresh "cl" in let ab := fresh "ab" in
  let tg := fresh "tg" in let cf := fresh "cf" in let sa := fresh "sa" in
  let se := fresh "se" in let fl := fresh "fl" in
  destruct env as [co so sv cl ab], w as [tg cf sa se fl];
  simpl in *; run_unfold; simpl;
  repeat (run_next co so sv cl ab sa se fl; simpl).

Ltac eval_trace :=
  match goal with
  | |- context [trace ?t] =>
      let tr := eval vm_compute in (trace t) in change (trace t) with tr
  end.

Ltac not_in_trace :=
  repeat (apply not_elem_of_cons; split; [discriminate|]); apply not_elem_of_nil.

Ltac in_trace H :=
  repeat (apply elem_of_cons in H as [H|H]; [try discriminate|]);
  try (apply elem_of_nil in H; destruct H).

Lemma emitted_outline env w : emitted env w = outline env w.
Proof.
  remember (outline env w) as o eqn:Ho. run_cases env w.
  all: subst o; unfold outline, resolves; simplify_eq; simpl.
  all: repeat (match goal with H : ?x = _ |- context [?x] => rewrite H end; simpl).
  all: try reflexivity.
  all: destruct fl; reflexivity.
Qed.

Lemma disciplined_intro l :
  lifecycle l = true → bool_decide (NoDup l) = true → after_terminal l = [] →
  length (terminals l) ≤ 1 → disciplined l.
Proof. intros ? ?%bool_decide_eq_true ? ?. by repeat split. Qed.





(** ** The status sequence of a run *)

(** C2, as amended: for every run in which the handler's [close] does not
    raise, the statuses emitted are [Connecting], [Pushing] cut short
    anywhere and then exactly one of [Pushed], [Aborted], [Failed]; none is
    emitted twice, none after the terminal one, and there is one terminal
    status at most. *)
Theorem run_lifecycle_when_close_succeeds env w :
  close_ok env = true → disciplined (emitted env w).
Proof.
  intros Hc. rewrite emitted_outline. unfold outline. rewrite Hc.
  destruct (_abort_requested w || abort_before env 0),
    (negb (resolves w && connect_ok env)), (abort_before env 1),
    (negb (send_ok env && (negb (save w) || save_ok env))), (abort_before env 2).
  all: apply disciplined_intro; vm_compute; done.
Qed.

Lemma run_lifecycle_witness :
  disciplined (emitted (device true true true true []) r1).
Proof. apply run_lifecycle_when_close_succeeds. reflexivity. Defined.

(** C2 as stated fails: when [close] raises after [Pushed] was emitted,
    the bare [except] emits [Failed] as well. *)
Lemma run_two_terminals_when_close_raises :
  emitted (device true true true false []) r1 = [Connecting; Pushing; Pushed; Failed]
  ∧ ¬ disciplined (emitted (device true true true false []) r1).
Proof.
  split; [reflexivity|]. intros (H & _). vm_compute in H. discriminate.
Qed.

(** ** The session is not closed when the push fails *)

(** C3 fails on the code: the device accepts the connection and then
    rejects the configuration; [run] reports [Failed] and returns, and
    [close] was never called. *)
Lemma run_failure_leaves_session_open :
  trace (start (device true false true true []) r1).2 =
    [LogInfo "Attempting to push config to r1.example.com"; Emit Connecting;
     GenericHandler "r1.example.com" "admin" "secret" None;
     LogInfo "Connected to r1.example.com successfully"; Emit Pushing;
     SendConfigSet "no shutdown"; LogException; Emit Failed]
  ∧ (start (device true false true true []) r1).1 = Normal ()
  ∧ Close ∉ trace (start (device true false true true []) r1).2.
Proof.
  split; [reflexivity|]. split; [reflexivity|].
  eval_trace. not_in_trace.
Qed.

(** ** Abort *)

Lemma emitted_set_abort_before_3 env w b :
  emitted (set_abort_before 3 b env) w = emitted env w.
Proof. by rewrite !emitted_outline. Qed.

Lemma for_invariant {S A} (P : S → Prop) (body : A → py S unit) xs :
  (∀ x s, P s → P (body x s).2) → ∀ s, P s → P (for_ xs body s).2.
Proof.
  intros Hbody. induction xs as [|x xs IH]; intros s Hs; simpl; [done|].
  unfold bind. specialize (Hbody x s Hs).
  destruct (body x s) as [[[]| |e] s']; simpl in *; auto.
Qed.

Lemma abort_if_running_data w f : Ui.data (Ui.abort_if_running w f).2 = Ui.data f.
Proof.
  unfold Ui.abort_if_running, bind, get. destruct w as [h|]; [|done].
  destruct (Ui.threads f !! h) as [th|]; [|done]. by destruct (Ui.isRunning th).
Qed.

(** C7: when abort was requested before the first checkpoint reads the
    flag, the run emits [Aborted] and nothing else and never calls the
    handler's constructor; an abort requested after [Pushed] was emitted
    changes nothing in what the worker emits, and the abort operations of
    the form leave the store as it is. *)
Theorem abort_before_first_checkpoint_and_after_pushed env w :
  (_abort_requested w = true ∨ abort_before env 0 = true →
     emitted env w = [Aborted] ∧
     filter (λ e, is_connect e = true) (trace (start env w).2) = [])
  ∧ (Pushed ∈ emitted env w →
       emitted (set_abort_before 3 true env) w = emitted env w
       ∧ Pushed ∈ emitted (set_abort_before 3 true env) w)
  ∧ (∀ f rows, Ui.data (Ui.abort_all f).2 = Ui.data f
              ∧ Ui.data (Ui.abort_selected rows f).2 = Ui.data f).
Proof.
  split; [|split].
  - intros H. destruct env as [co so sv cl ab], w as [tg cf sa se fl]. simpl in H.
    run_unfold. simpl.
    destruct (ab 0), fl; simpl; try done. by destruct H.
  - intros Hp. by rewrite emitted_set_abort_before_3.
  - intros f rows. split.
    + unfold Ui.abort_all, bind, get.
      apply (for_invariant (λ s, Ui.data s = Ui.data f)); [|done].
      intros x s <-. apply abort_if_running_data.
    + unfold Ui.abort_selected.
      apply (for_invariant (λ s, Ui.data s = Ui.data f)); [|done].
      intros x s <-. unfold bind, get, getitem.
      destruct (Ui.workers s !! x); [|done]. apply abort_if_running_data.
Qed.

Lemma abort_before_first_checkpoint_witness :
  (emitted (device true true true true [0]) r1 = [Aborted]
   ∧ filter (λ e, is_connect e = true)
       (trace (start (device true true true true [0]) r1).2) = [])
  ∧ (emitted (set_abort_before 3 true (device true true true true [])) r1
       = emitted (device true true true true []) r1
     ∧ Pushed ∈ emitted (set_abort_before 3 true (device true true true true [])) r1).
Proof.
  split.
  - apply (abort_before_first_checkpoint_and_after_pushed
             (device true true true true [0]) r1).
    right. reflexivity.
  - apply (abort_before_first_checkpoint_and_after_pushed
             (device true true true true []) r1).
    by apply (list_elem_of_lookup_2 _ 2).
Defined.

(** ** Failures stay inside the worker *)




(** ** Saving the configuration *)

(** C10: a worker created with [save] false never calls [save_config]; a
    worker created with [save] true that reached [Pushing] and whose
    [send_config_set] succeeded calls it exactly once, right after
    [send_config_set]. *)
Theorem save_config_iff_save env w :
  (save w = false → SaveConfig ∉ trace (start env w).2)
  ∧ (save w = true → Emit Pushing ∈ trace (start env w).2 → send_ok env = true →
     ∃ pre post,
       trace (start env w).2 = (pre ++ [SendConfigSet (config w); SaveConfig] ++ post)
       ∧ (SaveConfig ∉ pre) ∧ (SaveConfig ∉ post)).
Proof.
  split.
  - intros Hs. run_cases env w; try discriminate; not_in_trace.
  - intros Hs Hp Hso. revert Hp. run_cases env w; try discriminate.
    all: intros Hp; try (in_trace Hp; fail).
    all: match goal with
         | |- ∃ pre post, ?tr = _ ∧ _ => exists (take 5 tr), (drop 7 tr)
         end; simpl; (split; [reflexivity|split; not_in_trace]).
Qed.

Lemma save_config_iff_save_witness :
  ∃ pre post,
    trace (start (device true true true true []) r1).2
      = (pre ++ [SendConfigSet (config r1); SaveConfig] ++ post)
    ∧ (SaveConfig ∉ pre) ∧ (SaveConfig ∉ post).
Proof.
  apply (proj2 (save_config_iff_save (device true true true true []) r1));
    [reflexivity| |reflexivity].
  eval_trace. by apply (list_elem_of_lookup_2 _ 4).
Defined.

(** ** The JSON document of the store reads back *)

Import Ui.

Lemma scanstring_escape_char c k :
  scanstring (escape_char c k) = prepend c (scanstring k).
Proof. destruct c as [[] [] [] [] [] [] [] []]; reflexivity. Qed.

Lemma scanstring_escape s k :
  scanstring (escape s (String "034" k)) = Some (s, k).
Proof.
  induction s as [|c s IH]; simpl; [done|].
  by rewrite scanstring_escape_char, IH.
Qed.

Lemma parse_string_dump_str s k : parse_string (dump_str s k) = Some (s, k).
Proof. unfold parse_string, dump_str, expect. simpl. apply scanstring_escape. Qed.

Lemma parse_string_dump_str_sp s k :
  parse_string (String " " (dump_str s k)) = Some (s, k).
Proof. unfold parse_string, dump_str, expect. simpl. apply scanstring_escape. Qed.

Lemma parse_bool_dump_bool_sp b k :
  parse_bool (String " " (dump_bool b k)) = Some (b, k).
Proof. by destruct b. Qed.

Lemma parse_status_dump_sp st k :
  parse_status (String " " (dump_str (status_name st) k)) = Some (st, k).
Proof. unfold parse_status. rewrite parse_string_dump_str_sp. by destruct st. Qed.

Lemma parse_member_dump_member {A} key (value : string → option (A * string))
    (text : string → string) v k :
  (∀ k', value (String " " (text k')) = Some (v, k')) →
  parse_member key value (dump_member key text k) = Some (v, k).
Proof.
  intros Hv. unfold parse_member, dump_member, compose, parse_string, dump_str, expect.
  simpl. rewrite scanstring_escape. simpl. rewrite String.eqb_refl. simpl. apply Hv.
Qed.

Lemma parse_record_dump_record r k :
  parse_record (nl (spaces 4 (dump_record r k))) = Some (r, k).
Proof.
  unfold parse_record, dump_record, compose. try unfold expect at 1. simpl.
  rewrite (parse_member_dump_member _ _ _ (target r)) by apply parse_string_dump_str_sp.
  try unfold expect at 1. simpl.
  rewrite (parse_member_dump_member _ _ _ (config r)) by apply parse_string_dump_str_sp.
  try unfold expect at 1. simpl.
  rewrite (parse_member_dump_member _ _ _ (save r)) by apply parse_bool_dump_bool_sp.
  try unfold expect at 1. simpl.
  rewrite (parse_member_dump_member _ _ _ (status r)) by apply parse_status_dump_sp.
  simpl. by destruct r.
Qed.

Lemma dump_rest_cons r l k :
  dump_rest (r :: l) k = String "," (nl (spaces 4 (dump_record r (dump_rest l k)))).
Proof. reflexivity. Qed.

Lemma parse_rest_comma fuel s :
  parse_rest (S fuel) (String "," s)
  = '(x, r') ← parse_record s; l ← parse_rest fuel r'; Some (x :: l).
Proof. reflexivity. Qed.

Lemma parse_rest_dump_rest l fuel :
  length l < fuel → parse_rest fuel (dump_rest l EmptyString) = Some l.
Proof.
  revert fuel. induction l as [|r l IH]; intros [|fuel] Hf; simpl in Hf; try lia.
  - done.
  - rewrite dump_rest_cons, parse_rest_comma, parse_record_dump_record.
    cbn [mbind option_bind]. rewrite IH by lia. done.
Qed.

Create HintDb grows discriminated.

Lemma grows_compose f g : grows f → grows g → grows (f ∘ g).
Proof. intros Hf Hg k. unfold compose. etrans; [apply Hg|apply Hf]. Qed.

Lemma grows_lit s : grows (lit s).
Proof.
  intros k. unfold lit. induction s as [|c s IH]; [done|].
  change (String.length k ≤ S (String.length (s +:+ k))). lia.
Qed.

Lemma grows_nl : grows nl.
Proof. intros k. unfold nl. cbn [String.length]. lia. Qed.

Lemma grows_spaces n : grows (spaces n).
Proof. intros k. induction n as [|n IH]; cbn [spaces String.length]; lia. Qed.

Lemma grows_escape s : grows (escape s).
Proof.
  intros k. induction s as [|c s IH]; cbn [escape]; [done|].
  etrans; [apply IH|]. generalize (escape s k). intros k'.
  destruct c as [[] [] [] [] [] [] [] []]; cbv; lia.
Qed.

Lemma grows_dump_str s : grows (dump_str s).
Proof.
  intros k. unfold dump_str. pose proof (grows_escape s (String "034" k)) as H.
  cbn [String.length] in *. lia.
Qed.

Lemma grows_dump_bool b : grows (dump_bool b).
Proof. apply grows_lit. Qed.

#[local] Hint Resolve grows_compose grows_lit grows_nl grows_spaces grows_dump_str
  grows_dump_bool : grows.

Lemma grows_dump_member key text : grows text → grows (dump_member key text).
Proof. intros Ht. unfold dump_member. auto 10 with grows. Qed.

#[local] Hint Resolve grows_dump_member : grows.

Lemma grows_dump_record r : grows (dump_record r).
Proof. unfold dump_record. auto 30 with grows. Qed.

Lemma length_dump_rest l k : length l < String.length (dump_rest l k).
Proof.
  induction l as [|r l IH].
  - cbv [dump_rest compose nl lit String.append]. cbn [String.length length]. lia.
  - rewrite dump_rest_cons.
    pose proof (grows_dump_record r (dump_rest l k)).
    cbv [nl spaces]. cbn [String.length length]. lia.
Qed.

Lemma json_dump_cons r l :
  json_dump (r :: l)
  = String "[" (nl (spaces 4 (dump_record r (dump_rest l EmptyString)))).
Proof. reflexivity. Qed.

Lemma json_load_bracket s :
  json_load (String "[" s)
  = match expect "]" s with
    | Some r' => if at_end r' then Some [] else None
    | None =>
        '(x, r') ← parse_record s;
        l ← parse_rest (String.length (String "[" s)) r'; Some (x :: l)
    end.
Proof. reflexivity. Qed.

Lemma expect_bracket_dump_record r k :
  expect "]" (nl (spaces 4 (dump_record r k))) = None.
Proof. reflexivity. Qed.

Theorem json_load_dump l : json_load (json_dump l) = Some l.
Proof.
  destruct l as [|r l]; [reflexivity|].
  rewrite json_dump_cons, json_load_bracket, expect_bracket_dump_record,
    parse_record_dump_record.
  cbn [mbind option_bind]. rewrite parse_rest_dump_rest; [done|].
  cbn [String.length].
  pose proof (grows_dump_record r (dump_rest l EmptyString)).
  pose proof (length_dump_rest l EmptyString).
  cbv [nl spaces]. cbn [String.length]. lia.
Qed.

(** ** The store persists every mutation *)

Lemma dump_persisted s : persisted (dump s).2.
Proof. reflexivity. Qed.

Lemma mutate_persisted m s s' : mutate m s = (Normal (), s') → persisted s'.
Proof.
  destruct m as [item|index value|item|]; simpl;
    unfold append, __setitem__, remove, clear, set_items, getitem, bind, get,
      modify, raise, pure; simpl.
  - intros [= <-]. reflexivity.
  - destruct (items s !! index); simpl; intros [= <-]. reflexivity.
  - destruct (list_remove item (items s)); simpl; intros [= <-]. reflexivity.
  - intros [= <-]. reflexivity.
Qed.

Lemma reload_persisted s : persisted s → reload s = (Normal (), s).
Proof.
  unfold persisted, reload, PersistantList_init. destruct s as [its dk]. simpl.
  intros ->. unfold load, set_items, bind, get, modify, raise, pure. simpl.
  by rewrite json_load_dump.
Qed.

Lemma for_mutate_persisted ms s s' :
  ms ≠ [] → for_ ms mutate s = (Normal (), s') → persisted s'.
Proof.
  revert s. induction ms as [|m ms IH]; intros s Hne; [done|].
  simpl. unfold bind. destruct (mutate m s) as [[[]| |e] s1] eqn:Hm; try done.
  destruct ms as [|m' ms].
  - simpl. unfold pure. intros [= <-]. by eapply mutate_persisted.
  - intros H. by apply (IH s1).
Qed.

(** C6: after every mutating call of the store that returns, the file
    holds the dump of the list as it is then, and a new store read from
    that file is the same list; so it is after any non-empty sequence of
    such calls. *)
Theorem store_round_trip :
  (∀ m s s', mutate m s = (Normal (), s') →
     disk s' = Some (json_dump (items s'))
     ∧ json_load (json_dump (items s')) = Some (items s')
     ∧ reload s' = (Normal (), s'))
  ∧ (∀ ms s s', ms ≠ [] → for_ ms mutate s = (Normal (), s') →
     disk s' = Some (json_dump (items s')) ∧ reload s' = (Normal (), s')).
Proof.
  split.
  - intros m s s' Hm. pose proof (mutate_persisted _ _ _ Hm) as Hp.
    split; [done|]. split; [apply json_load_dump|by apply reload_persisted].
  - intros ms s s' Hne Hms. pose proof (for_mutate_persisted _ _ _ Hne Hms) as Hp.
    split; [done|by apply reload_persisted].
Qed.

Lemma store_round_trip_witness :
  let s := (for_ [Append A; Append B; SetItem 0 B; Remove B; Clear; Append A] mutate
              {| items := []; disk := None |}).2 in
  items s = [A] ∧ disk s = Some (json_dump (items s)) ∧ reload s = (Normal (), s).
Proof.
  split; [reflexivity|].
  apply (proj2 store_round_trip
           [Append A; Append B; SetItem 0 B; Remove B; Clear; Append A]
           {| items := []; disk := None |}); [done|reflexivity].
Defined.

(** ** One handle per task *)

Lemma list_remove_lookup {A} `{EqDecision A} (l : list A) i x :
  l !! i = Some x → ∃ l', list_remove x l = Some l' ∧ S (length l') = length l.
Proof.
  revert i. induction l as [|y l IH]; intros i Hi; [done|]. simpl.
  destruct (decide (y = x)) as [->|Hne]; [by eexists|].
  destruct i as [|i]; simpl in Hi; [congruence|].
  destruct (IH _ Hi) as (l' & -> & Hl). eexists. split; [done|]. simpl. lia.
Qed.

(** [add_row], [clear_all] and [delete_row] keep the two lists of the same
    length. *)
Lemma add_row_paired tg cf st sv f : paired f → paired (add_row tg cf st sv f).2.
Proof.
  unfold paired. destruct f as [se [its dk] ws cw ths]. simpl.
  rewrite !length_app. simpl. lia.
Qed.

Lemma clear_all_paired f : paired (clear_all f).2.
Proof. by destruct f as [se [its dk] ws cw ths]. Qed.

Lemma delete_row_paired row f :
  row < length (items (data f)) → paired f → paired (delete_row [row] f).2.
Proof.
  unfold paired. destruct f as [se [its dk] ws cw ths]. simpl. intros Hrow Hp.
  destruct (lookup_lt_is_Some_2 its row Hrow) as [cd Hcd].
  destruct (list_remove_lookup _ _ _ Hcd) as (its' & Hrm & Hlen).
  unfold delete_row, getitem, on_data, remove, set_items, set_cellWidget,
    set_workers, list_pop, dump, bind, get, modify, raise, pure. simpl.
  destruct its as [|x0 its0] eqn:Hits; [done|]. rewrite <- Hits in *.
  rewrite Hcd. simpl. rewrite Hrm. simpl.
  destruct (decide (row < length ws)) as [Hlt|]; [|lia]. simpl.
  rewrite length_delete by (by apply lookup_lt_is_Some_2). lia.
Qed.

(** C1 fails on the code: a board with one task and its one placeholder
    handle; pushing it leaves one task and two handles, because [_push]
    inserts the new worker into [workers] instead of storing it at
    [index]. *)
Lemma push_breaks_pairing :
  let f := run_all [add A] empty_board in
  paired f
  ∧ workers f = [None]
  ∧ items (data (push_all f).2) = [A]
  ∧ workers (push_all f).2 = [Some 0; None]
  ∧ ¬ paired (push_all f).2.
Proof. repeat split; try reflexivity. vm_compute. discriminate. Qed.

(** Nor are the handles rebuilt when the board starts from a saved file:
    [load_rows] fills the table and leaves [workers] empty. *)
Lemma saved_tasks_start_without_handles :
  let f := (Form_init None (Some (json_dump [A; B]))).2 in
  items (data f) = [A; B] ∧ workers f = [] ∧ ¬ paired f.
Proof. repeat split; try reflexivity. vm_compute. discriminate. Qed.

(** ** Deleting a row *)

(** C5 fails on the code: with the same task at positions 0 and 2,
    deleting row 2 removes the record at position 0 (the first equal one)
    and the handle at position 2. *)
Lemma delete_row_removes_first_equal :
  let f := run_all [add A; add B; add A] empty_board in
  items (data f) = [A; B; A]
  ∧ (delete_row [2] f).1 = Normal ()
  ∧ items (data (delete_row [2] f).2) = [B; A]
  ∧ delete 2 (items (data f)) = [A; B]
  ∧ workers (delete_row [2] f).2 = delete 2 (workers f).
Proof. repeat split; reflexivity. Qed.

(** ** Status events are routed by position *)


Lemma _push_state f index tg cf :
  tg ≠ EmptyString → cf ≠ EmptyString →
  _push index tg cf f =
    (Normal (),
     {| session := session f; data := data f;
        workers := list_insert_at index (Some (length (threads f))) (workers f);
        cellWidget := cellWidget f;
        threads := threads f ++ [spawned f index tg cf] |}).
Proof.
  intros Ht Hc. unfold _push, def, bind, get, return_, pure, set_threads,
    set_workers, modify.
  rewrite (bool_decide_eq_false_2 _ Ht), (bool_decide_eq_false_2 _ Hc). simpl.
  reflexivity.
Qed.





(** ** Pushing skips what is already pushed *)

Lemma elem_of_unpushed its rows i :
  i ∈ unpushed its rows
  ↔ i ∈ rows ∧ ∃ cd, its !! i = Some cd ∧ status cd ≠ Workers.Pushed.
Proof.
  unfold unpushed, needs_push. rewrite list_elem_of_filter. split.
  - intros [Hn Hi]. split; [done|]. destruct (its !! i) as [cd|]; [|done].
    exists cd. split; [done|]. by apply bool_decide_eq_true in Hn.
  - intros [Hi (cd & -> & Hs)]. split; [|done]. by apply bool_decide_eq_true.
Qed.

Lemma unpushed_cons its i rows :
  unpushed its (i :: rows)
  = (if needs_push its i then [i] else []) ++ unpushed its rows.
Proof.
  unfold unpushed. rewrite filter_cons.
  destruct (needs_push its i); by case_decide.
Qed.

Lemma push_selected_cons i rows f :
  push_selected (i :: rows) f
  = match items (data f) !! i with
    | Some cd =>
        match push_if_not_pushed i cd f with
        | (Normal _, f1) => push_selected rows f1
        | (Return, f1) => (Return, f1)
        | (Raise e, f1) => (Raise e, f1)
        end
    | None => (Raise IndexError, f)
    end.
Proof.
  unfold push_selected. cbn [for_]. unfold bind, get, getitem.
  by destruct (items (data f) !! i).
Qed.

Lemma pushed_nil f : pushed f [] = f.
Proof.
  unfold pushed, pushes, unpushed. simpl. rewrite app_nil_r. by destruct f.
Qed.

Lemma push_selected_state rows f :
  Forall well_formed (items (data f)) →
  Forall (λ i, i < length (items (data f))) rows →
  push_selected rows f = (Normal (), pushed f rows).
Proof.
  intros Hwf. revert f Hwf.
  induction rows as [|i rows IH]; intros f Hwf Hrows.
  - by rewrite pushed_nil.
  - apply Forall_cons in Hrows as [Hi Hrows].
    destruct (lookup_lt_is_Some_2 _ i Hi) as [cd Hcd].
    assert (Hcdwf : well_formed cd).
    { eapply Forall_forall; [done|]. by eapply list_elem_of_lookup_2. }
    rewrite push_selected_cons, Hcd. unfold push_if_not_pushed.
    unfold pushed at 1, pushes. rewrite unpushed_cons. unfold needs_push. rewrite Hcd.
    destruct (decide (status cd ≠ Workers.Pushed)) as [Hne|Heq].
    + rewrite bool_decide_eq_true_2 by done.
      destruct Hcdwf as [Ht Hc]. rewrite (_push_state f i _ _ Ht Hc).
      rewrite IH by done. unfold pushed, pushes.
      cbn [session data workers cellWidget threads app omap list_omap insert_handles].
      rewrite Hcd. cbn [fmap option_fmap option_map].
      rewrite length_app, Nat.add_1_r, <- app_assoc. done.
    + rewrite bool_decide_eq_false_2 by done. unfold pure.
      rewrite IH by done. done.
Qed.

Lemma for_pairs_is_push_selected pre its f :
  items (data f) = pre ++ its →
  (∀ f', data f' = data f →
     for_ (imap (λ i cd, (length pre + i, cd)) its)
          (λ '(index, cd), push_if_not_pushed index cd) f'
     = push_selected (seq (length pre) (length its)) f').
Proof.
  revert pre. induction its as [|cd its IH]; intros pre Hits f' Hd; [done|].
  cbn [imap length seq]. rewrite push_selected_cons.
  rewrite Hd, Hits, list_lookup_middle by done.
  cbn [for_]. unfold bind at 1. rewrite Nat.add_0_r.
  destruct (push_if_not_pushed (length pre) cd f') as [[[]| |e] f1] eqn:Hp; try done.
  assert (Hd1 : data f1 = data f).
  { rewrite <- Hd. unfold push_if_not_pushed in Hp.
    destruct (decide _); [|by injection Hp as <-].
    unfold _push, def, bind, get, return_, pure, set_threads, set_workers,
      modify in Hp.
    destruct (_ || _); simpl in Hp; by injection Hp as <-. }
  specialize (IH (pre ++ [cd])). rewrite length_app in IH. simpl in IH.
  rewrite Nat.add_1_r in IH.
  rewrite <- (IH ltac:(by rewrite <- app_assoc) f1 Hd1).
  f_equal. apply imap_ext. intros j x _. simpl. f_equal. lia.
Qed.

Lemma pushes_described f rows :
  Forall2 (λ i th, ∃ cd, items (data f) !! i = Some cd
                         ∧ status cd ≠ Workers.Pushed
                         ∧ th = spawned f i (target cd) (config cd))
    (unpushed (items (data f)) rows) (pushes f rows).
Proof.
  unfold pushes.
  assert (H : Forall (λ i, i ∈ unpushed (items (data f)) rows)
                (unpushed (items (data f)) rows)) by by apply Forall_forall.
  revert H. generalize (unpushed (items (data f)) rows) at 2 3 4.
  intros l. induction l as [|i l IH]; intros Hl; [constructor|].
  apply Forall_cons in Hl as [Hi Hl].
  apply elem_of_unpushed in Hi as (_ & cd & Hcd & Hs).
  cbn [omap list_omap]. rewrite Hcd. cbn [fmap option_fmap option_map].
  constructor; [by exists cd|by apply IH].
Qed.

(** C9: when every task has a target and a configuration, [push_all] and
    [push_selected] return and leave the store, the table and the earlier
    workers as they are.  For a visited position whose task is [Pushed]
    they create no worker and store no handle.  For each other visited
    position, in the order visited, they create one running worker with
    the task's target and configuration, [save] as the row's check box
    says and the form's session, connect it to that position, and insert
    its handle into the handle list at that position. *)
Theorem push_skips_pushed f :
  Forall well_formed (items (data f)) →
  push_all f = (Normal (), pushed f (seq 0 (length (items (data f)))))
  ∧ (∀ rows, Forall (λ i, i < length (items (data f))) rows →
       push_selected rows f = (Normal (), pushed f rows))
  ∧ (∀ rows,
       data (pushed f rows) = data f
       ∧ cellWidget (pushed f rows) = cellWidget f
       ∧ threads (pushed f rows) = threads f ++ pushes f rows
       ∧ workers (pushed f rows)
         = insert_handles (length (threads f)) (unpushed (items (data f)) rows)
             (workers f)
       ∧ slots (pushed f rows) = slots f ++ unpushed (items (data f)) rows
       ∧ Forall2 (λ i th, ∃ cd, items (data f) !! i = Some cd
                                ∧ status cd ≠ Workers.Pushed
                                ∧ th = {| worker :=
                                            Workers.__init__ (target cd) (config cd)
                                              (match cellWidget f !! i with
                                               | Some cb => isChecked cb
                                               | None => false
                                               end) (session f);
                                          slot := i; isRunning := true |})
           (unpushed (items (data f)) rows) (pushes f rows))
  ∧ (∀ rows i,
       i ∈ unpushed (items (data f)) rows
       ↔ i ∈ rows ∧ ∃ cd, items (data f) !! i = Some cd
                          ∧ status cd ≠ Workers.Pushed).
Proof.
  intros Hwf. split; [|split; [|split]].
  - unfold push_all, bind at 1, get.
    rewrite (imap_ext _ (λ i cd, (length (@nil config_data) + i, cd)))
      by (intros; reflexivity).
    rewrite (for_pairs_is_push_selected [] _ f) by done.
    apply push_selected_state; [done|].
    apply Forall_forall. intros i Hi%elem_of_seq. simpl in *. lia.
  - intros rows Hrows. by apply push_selected_state.
  - intros rows. repeat split.
    + unfold slots, pushed. cbn [threads]. rewrite fmap_app. f_equal.
      pose proof (pushes_described f rows) as H.
      induction H as [|i th l k (cd & _ & _ & ->) _ IH]; [done|].
      rewrite fmap_cons. by rewrite IH.
    + apply pushes_described.
  - intros rows i. apply elem_of_unpushed.
Qed.

Lemma push_skips_pushed_witness :
  let f := run_all [add A; add B; _push 0 (target A) (config A);
                    status_signal 0 Workers.Pushed; stateChanged 1 false]
             empty_board in
  (status <$> items (data f) = [Workers.Pushed; Workers.Pending]
   ∧ workers f = [Some 0; None; None])
  ∧ push_all f = (Normal (), pushed f (seq 0 (length (items (data f)))))
  ∧ push_selected [1; 0] f = (Normal (), pushed f [1; 0])
  ∧ pushed f [1; 0]
    = {| session := session f; data := data f;
         workers := [Some 0; Some 1; None; None];
         cellWidget := cellWidget f;
         threads := threads f
                    ++ [{| worker := Workers.__init__ (target B) (config B) false None;
                           slot := 1; isRunning := true |}] |}.
Proof.
  intros f. split; [split; vm_compute; reflexivity|].
  destruct (push_skips_pushed f) as (Hall & Hsel & _).
  { repeat constructor; done. }
  split; [exact Hall|]. split; [|vm_compute; reflexivity].
  apply Hsel. repeat constructor; vm_compute; lia.
Defined.

(** * Further properties of the code *)

(** ** The worker and the device *)

Lemma handler_calls_outline env w :
  Workers.handler_calls (trace (start env w).2) = Workers.call_outline env w.
Proof.
  remember (Workers.call_outline env w) as o eqn:Ho. run_cases env w.
  all: subst o; unfold Workers.call_outline, Workers.connection; simplify_eq; simpl.
  all: repeat (match goal with H : ?x = _ |- context [?x] => rewrite H end; simpl).
  all: try reflexivity.
  all: destruct fl; reflexivity.
Qed.

Lemma connection_resolves w :
  match Workers.connection w with
  | Some _ => resolves w = true
  | None => resolves w = false
  end.
Proof.
  unfold Workers.connection, resolves. destruct (Workers.session w) as [d|]; [|done].
  simpl.
  destruct (truthy (d !! "JUMPHOST_IP")) eqn:Hip; simpl.
  - destruct (d !! "JUMPHOST_IP") as [ip|]; [|done]. simpl.
    destruct (d !! "JUMPHOST_USERNAME"), (d !! "JUMPHOST_PASSWORD"),
      (d !! "NETWORK_USERNAME"), (d !! "NETWORK_PASSWORD"); done.
  - destruct (d !! "NETWORK_USERNAME"), (d !! "NETWORK_PASSWORD"); done.
Qed.

Lemma connection_Some w c :
  Workers.connection w = Some c →
  ∃ user pass px, c = GenericHandler (Workers.target w) user pass px.
Proof.
  unfold Workers.connection. intros H.
  destruct (Workers.session w) as [d|]; simplify_option_eq; eauto.
Qed.

Lemma closes_handler_calls tr :
  Workers.closes tr = Workers.closes (Workers.handler_calls tr).
Proof.
  unfold Workers.closes, Workers.handler_calls.
  induction tr as [|e tr IH]; [done|].
  destruct e; simpl; rewrite ?filter_cons; simpl;
    repeat case_decide; simpl; try done; try lia.
  all: rewrite ?filter_cons; repeat case_decide; simpl; try done; lia.
Qed.

Lemma call_outline_connect env w host user pass px :
  GenericHandler host user pass px ∈ Workers.call_outline env w →
  Workers.connection w = Some (GenericHandler host user pass px).
Proof.
  unfold Workers.call_outline.
  destruct (_abort_requested w || abort_before env 0); [by intros ?%elem_of_nil|].
  destruct (Workers.connection w) as [c|]; [|by intros ?%elem_of_nil].
  intros [->|H]%elem_of_cons; [done|]. exfalso.
  destruct (connect_ok env), (abort_before env 1), (send_ok env), (Workers.save w),
    (save_ok env); simpl in H; in_trace H.
Qed.

(** X1: what a run emits and what it calls on the device are fixed by the
    decisions it meets: the flag at each checkpoint, whether the session
    holds the keys it reads, and which handler call fails.  The statuses
    are those of [outline], the handler calls those of [call_outline]:
    the constructor first, [send_config_set] only after it, [save_config]
    only after a successful send of a task with [save], [close] last. *)
Theorem run_outline env w :
  emitted env w = outline env w
  ∧ Workers.handler_calls (trace (start env w).2) = Workers.call_outline env w.
Proof. split; [apply emitted_outline|apply handler_calls_outline]. Qed.

(** X2: [handler.close] is called at most once, and it is called exactly
    when the run reported [Connecting] and then [Pushed] or [Aborted]: a
    run aborted before it connected and a run that failed never close. *)
Theorem close_follows_the_reported_status env w :
  Workers.closes (trace (start env w).2) =
    if bool_decide (Connecting ∈ emitted env w
                    ∧ (Pushed ∈ emitted env w ∨ Aborted ∈ emitted env w))
    then 1 else 0.
Proof.
  rewrite closes_handler_calls, handler_calls_outline, emitted_outline.
  unfold Workers.call_outline, outline.
  pose proof (connection_resolves w) as Hr.
  destruct (Workers.connection w) as [c|] eqn:Hc; rewrite Hr; clear Hr.
  - apply connection_Some in Hc as (user & pass & px & ->).
    destruct (_abort_requested w || abort_before env 0), (connect_ok env),
      (abort_before env 1), (send_ok env), (Workers.save w), (save_ok env),
      (abort_before env 2), (close_ok env); reflexivity.
  - destruct (_abort_requested w || abort_before env 0); reflexivity.
Qed.

(** X3: whenever a run constructs the handler, it does so for the
    worker's target with the session's [NETWORK_USERNAME] and
    [NETWORK_PASSWORD]; the proxy is [None] exactly when the session has
    no non-empty [JUMPHOST_IP], and otherwise carries the session's three
    [JUMPHOST_] values. *)
Theorem connect_arguments env w host user pass px :
  GenericHandler host user pass px ∈ trace (start env w).2 →
  host = Workers.target w
  ∧ ∃ d, Workers.session w = Some d
      ∧ d !! "NETWORK_USERNAME" = Some user
      ∧ d !! "NETWORK_PASSWORD" = Some pass
      ∧ match px with
        | None => truthy (d !! "JUMPHOST_IP") = false
        | Some p => truthy (d !! "JUMPHOST_IP") = true
                    ∧ d !! "JUMPHOST_IP" = Some (hostname p)
                    ∧ d !! "JUMPHOST_USERNAME" = Some (username p)
                    ∧ d !! "JUMPHOST_PASSWORD" = Some (password p)
        end.
Proof.
  intros H.
  assert (Hc : GenericHandler host user pass px ∈ Workers.call_outline env w).
  { rewrite <- handler_calls_outline. by apply list_elem_of_filter. }
  apply call_outline_connect in Hc. unfold Workers.connection in Hc.
  destruct (Workers.session w) as [d|]; [|done]. simpl in Hc.
  destruct (truthy (d !! "JUMPHOST_IP")) eqn:Hip; simplify_option_eq.
  all: split; [done|]; eexists; repeat split; eauto.
  by match goal with H : _ !! "JUMPHOST_IP" = _ |- _ => rewrite H end.
Qed.

Lemma connect_arguments_witness :
  "r1.example.com" = Workers.target r1_via_jumphost
  ∧ ∃ d, Workers.session r1_via_jumphost = Some d
      ∧ d !! "NETWORK_USERNAME" = Some "admin"
      ∧ d !! "NETWORK_PASSWORD" = Some "secret"
      ∧ truthy (d !! "JUMPHOST_IP") = true
      ∧ d !! "JUMPHOST_IP" = Some "10.0.0.1"
      ∧ d !! "JUMPHOST_USERNAME" = Some "jump"
      ∧ d !! "JUMPHOST_PASSWORD" = Some "hop".
Proof.
  apply (connect_arguments (device true true true true []) r1_via_jumphost
           "r1.example.com" "admin" "secret"
           (Some {| hostname := "10.0.0.1"; username := "jump"; password := "hop" |})).
  eval_trace. by apply (list_elem_of_lookup_2 _ 2).
Defined.

(** X4: a worker whose session lacks a key the run reads (or that has no
    session) reports [Connecting] and then [Failed], and makes no call on
    the device at all, not even the constructor. *)
Theorem missing_credentials_fail_before_connect env w :
  resolves w = false → _abort_requested w = false → abort_before env 0 = false →
  emitted env w = [Connecting; Failed]
  ∧ Workers.handler_calls (trace (start env w).2) = [].
Proof.
  intros Hr Hf Ha. rewrite emitted_outline, handler_calls_outline.
  unfold outline, Workers.call_outline. rewrite Hr, Hf, Ha. simpl.
  pose proof (connection_resolves w) as Hc.
  destruct (Workers.connection w); [congruence|done].
Qed.

Lemma missing_credentials_witness :
  emitted (device true true true true [])
    (__init__ "r1.example.com" "no shutdown" true (Some ∅))
    = [Connecting; Failed]
  ∧ Workers.handler_calls
      (trace (start (device true true true true [])
                (__init__ "r1.example.com" "no shutdown" true (Some ∅))).2) = [].
Proof.
  apply missing_credentials_fail_before_connect; reflexivity.
Defined.

(** X5: when the abort is seen at the second checkpoint, after the
    connection was made, the run reports [Connecting] and [Aborted], sends
    no configuration and closes the session: the device was only
    connected to. *)
Theorem abort_after_connect_sends_nothing env w c :
  _abort_requested w = false → abort_before env 0 = false →
  Workers.connection w = Some c → connect_ok env = true →
  abort_before env 1 = true →
  emitted env w = Connecting :: Aborted :: (if close_ok env then [] else [Failed])
  ∧ Workers.handler_calls (trace (start env w).2) = [c; Close].
Proof.
  intros Hf H0 Hc Hco H1. rewrite emitted_outline, handler_calls_outline.
  unfold outline, Workers.call_outline.
  pose proof (connection_resolves w) as Hr. rewrite Hc in Hr.
  by rewrite Hf, H0, Hc, Hco, H1, Hr.
Qed.

Lemma abort_after_connect_witness :
  emitted (device true true true true [1]) r1 = [Connecting; Aborted]
  ∧ Workers.handler_calls (trace (start (device true true true true [1]) r1).2)
    = [GenericHandler "r1.example.com" "admin" "secret" None; Close].
Proof.
  apply (abort_after_connect_sends_nothing (device true true true true [1]) r1);
    reflexivity.
Defined.

(** X6: when the abort arrives while the configuration is being pushed,
    the third checkpoint reports [Aborted] although [send_config_set] (and
    [save_config], for a task with [save]) already ran to the end on the
    device: [Aborted] does not mean the device is unchanged. *)
Theorem abort_after_send_is_reported_aborted env w c :
  _abort_requested w = false →
  abort_before env 0 = false → abort_before env 1 = false →
  abort_before env 2 = true →
  Workers.connection w = Some c → connect_ok env = true → send_ok env = true →
  (Workers.save w = true → save_ok env = true) →
  emitted env w
    = Connecting :: Pushing :: Aborted :: (if close_ok env then [] else [Failed])
  ∧ Workers.handler_calls (trace (start env w).2)
    = c :: SendConfigSet (Workers.config w)
        :: (if Workers.save w then [SaveConfig] else []) ++ [Close].
Proof.
  intros Hf H0 H1 H2 Hc Hco Hso Hsv. rewrite emitted_outline, handler_calls_outline.
  unfold outline, Workers.call_outline.
  pose proof (connection_resolves w) as Hr. rewrite Hc in Hr.
  rewrite Hf, H0, H1, H2, Hc, Hco, Hso, Hr. simpl.
  destruct (Workers.save w); [rewrite Hsv by done|]; done.
Qed.

Lemma abort_after_send_witness :
  emitted (device true true true true [2]) r1 = [Connecting; Pushing; Aborted]
  ∧ Workers.handler_calls (trace (start (device true true true true [2]) r1).2)
    = [GenericHandler "r1.example.com" "admin" "secret" None;
       SendConfigSet "no shutdown"; SaveConfig; Close].
Proof.
  apply (abort_after_send_is_reported_aborted (device true true true true [2]) r1);
    reflexivity.
Defined.

(** ** The store when a call fails *)


Lemma list_remove_first {X} `{EqDecision X} (l : list X) i x :
  l !! i = Some x →
  ∃ j, j ≤ i ∧ l !! j = Some x ∧ (∀ k, k < j → l !! k ≠ Some x)
       ∧ list_remove x l = Some (delete j l).
Proof.
  revert i. induction l as [|y l IH]; intros i Hi; [done|]. simpl.
  destruct (decide (y = x)) as [->|Hne].
  - exists 0. repeat split; [lia|intros k; lia].
  - destruct i as [|i]; simpl in Hi; [congruence|].
    destruct (IH _ Hi) as (j & Hj & Hx & Hmin & ->).
    exists (S j). repeat split; [lia|done|].
    intros [|k] Hk; simpl; [congruence|]. apply Hmin. lia.
Qed.

Lemma list_remove_NoDup {X} `{EqDecision X} (l : list X) i x :
  NoDup l → l !! i = Some x → list_remove x l = Some (delete i l).
Proof.
  intros Hnd Hi. destruct (list_remove_first _ _ _ Hi) as (j & _ & Hj & _ & ->).
  by rewrite (NoDup_lookup _ _ _ _ Hnd Hj Hi).
Qed.



(** ** Adding tasks: the dialog and the import *)

Lemma added_app new1 new2 f : added new2 (added new1 f) = added (new1 ++ new2) f.
Proof.
  destruct new1 as [|x l1]; [done|]. destruct new2 as [|y l2].
  { by rewrite app_nil_r. }
  unfold added. simpl. rewrite !length_app, <- !app_assoc. simpl.
  rewrite length_imap, imap_app, replicate_add. simpl. do 4 f_equal.
  f_equal; [f_equal; lia|].
  apply imap_ext. intros i z _. simpl. f_equal. lia.
Qed.

Lemma add_row_added tg cf f :
  add_row tg cf Workers.Pending true f = (Normal (), added [pending cf tg] f).
Proof.
  destruct f as [se [its dk] ws cw ths]. unfold added, pending, box. simpl.
  by rewrite Nat.add_0_r.
Qed.

Lemma for_add_row cf ts f :
  for_ ts (λ t, add_row t cf Workers.Pending true) f
  = (Normal (), added (pending cf <$> ts) f).
Proof.
  revert f. induction ts as [|t ts IH]; intros f; [done|].
  cbn [for_]. unfold bind. rewrite add_row_added, IH.
  by rewrite added_app.
Qed.

Lemma accept_loop cf ts f :
  ∃ r, for_ ts (λ target,
         (if bool_decide (target = EmptyString) then return_ else pure ()) ;;
         add_row target cf Workers.Pending true)%py f
       = (r, added (pending cf <$> leading ts) f)
       ∧ (r = Normal () ∨ r = Return).
Proof.
  revert f. induction ts as [|t ts IH]; intros f.
  - exists (Normal ()). by split; [|left].
  - cbn [for_ leading]. unfold bind at 1 2. destruct (bool_decide (t = EmptyString)).
    + exists Return. by split; [|right].
    + unfold pure at 1. rewrite add_row_added.
      destruct (IH (added [pending cf t] f)) as (r & -> & Hr).
      exists r. split; [|done]. by rewrite added_app.
Qed.

Lemma leading_well_formed cf ts :
  cf ≠ EmptyString → Forall well_formed (pending cf <$> leading ts).
Proof.
  intros Hcf. induction ts as [|t ts IH]; simpl; [constructor|].
  case_bool_decide; [constructor|]. rewrite fmap_cons. by constructor.
Qed.

(** X8: the dialog's [accept] adds nothing when the stripped targets or
    the stripped configuration are empty.  Otherwise it splits the targets
    at the commas, strips each, and adds one [Pending] task with [save] set
    for each target up to the first empty one; the targets after an empty
    one are dropped while those before it stay added.  Every task it adds
    has a target and a configuration. *)
Theorem accept_adds_until_first_empty_target targets_text config_text f :
  let targets := strip <$> split "," (strip targets_text) in
  let new := pending (strip config_text) <$> leading targets in
  (strip targets_text = EmptyString ∨ strip config_text = EmptyString →
     accept targets_text config_text f = (Normal (), f))
  ∧ (strip targets_text ≠ EmptyString → strip config_text ≠ EmptyString →
     accept targets_text config_text f = (Normal (), added new f)
     ∧ Forall well_formed new).
Proof.
  intros targets new. unfold accept, def. split.
  - intros H. unfold bind at 1.
    destruct H as [-> | ->]; simpl; [done|]. by rewrite orb_true_r.
  - intros Ht Hc. split; [|by apply leading_well_formed].
    destruct (accept_loop (strip config_text) targets f) as (r & Hr & Hk).
    unfold bind at 1. rewrite !bool_decide_false by done. cbn [orb]. unfold pure at 1.
    fold targets. rewrite Hr. by destruct Hk as [-> | ->].
Qed.

Lemma accept_witness :
  accept " r1 , r2,, r3" "no shutdown " empty_board
  = (Normal (), added [pending "no shutdown" "r1"; pending "no shutdown" "r2"] empty_board)
  ∧ Forall well_formed [pending "no shutdown" "r1"; pending "no shutdown" "r2"].
Proof.
  apply (proj2 (accept_adds_until_first_empty_target " r1 , r2,, r3" "no shutdown "
                  empty_board)); discriminate.
Defined.

Lemma import_row_added row f :
  import_row row f = (Normal (), added (option_list (row_task row)) f).
Proof.
  unfold import_row, row_task. destruct row as [|r0 [|r1 rest]]; try done.
  destruct (bool_decide (strip r0 = EmptyString) || bool_decide (strip r1 = EmptyString));
    [done|apply add_row_added].
Qed.

Lemma import_loop rows f :
  for_ rows import_row f = (Normal (), added (omap row_task rows) f).
Proof.
  revert f. induction rows as [|row rows IH]; intros f; [done|].
  cbn [for_]. unfold bind. rewrite import_row_added, IH, added_app.
  do 2 f_equal. change (omap row_task (row :: rows))
    with (match row_task row with
          | Some x => x :: omap row_task rows
          | None => omap row_task rows
          end).
  by destruct (row_task row).
Qed.

Lemma row_task_well_formed rows : Forall well_formed (omap row_task rows).
Proof.
  apply Forall_forall. intros cd (row & _ & Hcd)%list_elem_of_omap.
  unfold row_task in Hcd. destruct row as [|r0 [|r1 rest]]; try done.
  destruct (bool_decide (strip r0 = EmptyString)) eqn:H0; [done|].
  destruct (bool_decide (strip r1 = EmptyString)) eqn:H1; [done|]. simpl in Hcd.
  apply bool_decide_eq_false in H0, H1. by simplify_eq.
Qed.

(** X9: [import_csv] adds, in the order of the file, one [Pending] task
    with [save] set for each row that has at least two cells whose first
    two cells are not blank, with both cells stripped; the other rows are
    skipped, cells after the second are ignored, and the call never
    raises. *)
Theorem import_csv_adds_the_valid_rows csv_reader f :
  import_csv csv_reader f = (Normal (), added (omap row_task csv_reader) f)
  ∧ Forall well_formed (omap row_task csv_reader).
Proof.
  split; [|apply row_task_well_formed].
  unfold import_csv, try_except. by rewrite import_loop.
Qed.

(** ** Deleting a row, in general *)







(** ** Starting again from the file *)

Lemma for_insert_row its f :
  for_ its _insert_row f =
    (Normal (),
     {| session := session f; data := data f; workers := workers f;
        cellWidget := cellWidget f ++ imap (box ∘ Nat.add (length (cellWidget f))) its;
        threads := threads f |}).
Proof.
  revert f. induction its as [|cd its IH]; intros f.
  - simpl. rewrite app_nil_r. by destruct f.
  - cbn [for_]. unfold bind at 1. unfold _insert_row at 1.
    unfold bind, get, set_cellWidget, modify. rewrite IH. simpl.
    rewrite length_app, <- app_assoc. simpl. rewrite Nat.add_0_r.
    do 4 f_equal. apply imap_ext. intros i x _. simpl. f_equal. lia.
Qed.


(** X12: a form built over a file that reads back as the list [items s]
    holds exactly these tasks, shows one check box for each, checked as
    the task's [save] says and bound to the task's position, and has no
    workers. *)
Theorem restart_restores_the_table sess s :
  in_sync s →
  Form_init sess (disk s) =
    (Normal (),
     {| session := sess; data := s; workers := []; cellWidget := imap box (items s);
        threads := [] |}).
Proof.
  unfold in_sync, Form_init, PersistantList_init. destruct s as [its [doc|]]; [|done].
  simpl. intros Hl. unfold load, bind, get, set_items, modify. simpl. rewrite Hl. simpl.
  unfold load_rows, bind, set_cellWidget, modify, get. simpl.
  by rewrite for_insert_row.
Qed.

Lemma restart_restores_the_table_witness :
  let s := data (run_all [add A; stateChanged 0 false; add B] empty_board) in
  Form_init None (disk s) =
    (Normal (),
     {| session := None; data := s; workers := [];
        cellWidget := [{| isChecked := false; row := 0 |};
                       {| isChecked := true; row := 1 |}];
        threads := [] |}).
Proof.
  apply (restart_restores_the_table None
           (data (run_all [add A; stateChanged 0 false; add B] empty_board))).
  reflexivity.
Defined.



(** ** Check boxes, status events and aborts *)

Lemma stateChanged_state f p cb state :
  cellWidget f !! p = Some cb →
  stateChanged p state f =
    match items (data f) !! row cb with
    | Some cd =>
        (Normal (),
         {| session := session f;
            data := {| items := <[row cb := set_save state cd]> (items (data f));
                       disk := Some (json_dump (<[row cb := set_save state cd]>
                                                  (items (data f)))) |};
            workers := workers f;
            cellWidget := <[p := {| isChecked := state; row := row cb |}]> (cellWidget f);
            threads := threads f |})
    | None =>
        (Raise IndexError,
         {| session := session f; data := data f; workers := workers f;
            cellWidget := <[p := {| isChecked := state; row := row cb |}]> (cellWidget f);
            threads := threads f |})
    end.
Proof.
  intros Hcb. destruct f as [se [its dk] ws cw ths]. simpl in *.
  unfold stateChanged, on_checkbox_changed, getitem, on_data, set_items, dump,
    set_cellWidget, bind, get, modify, pure, raise. simpl. rewrite Hcb. simpl.
  by destruct (its !! row cb).
Qed.

(** X14: the worker [_push] creates takes [save] from the check box of
    its row as it is at that moment: after the user set the box of row [p]
    to [state], a push of row [p] creates one worker with [save = state],
    the form's session, and the abort flag down. *)
Theorem push_reads_the_check_box f p cb state tg cf :
  cellWidget f !! p = Some cb → tg ≠ EmptyString → cf ≠ EmptyString →
  threads (_push p tg cf (stateChanged p state f).2).2
  = threads f ++ [{| worker := Workers.__init__ tg cf state (session f);
                     slot := p; isRunning := true |}].
Proof.
  intros Hcb Htg Hcf. rewrite (stateChanged_state _ _ _ _ Hcb).
  assert (Hp : p < length (cellWidget f)) by (apply lookup_lt_is_Some; by eexists).
  unfold _push, def, bind, get, set_threads, set_workers, modify, pure, return_.
  rewrite !bool_decide_false by done.
  destruct (items (data f) !! row cb); simpl; by rewrite list_lookup_insert_eq.
Qed.

Lemma push_reads_the_check_box_witness :
  let f := run_all [add A] empty_board in
  threads (_push 0 "r1.example.com" "no shutdown" (stateChanged 0 false f).2).2
  = threads f ++ [{| worker := Workers.__init__ "r1.example.com" "no shutdown" false
                                 (session f);
                     slot := 0; isRunning := true |}].
Proof.
  apply (push_reads_the_check_box (run_all [add A] empty_board) 0
           {| isChecked := true; row := 0 |}); [reflexivity|discriminate..].
Defined.

Lemma _update_status_state f index st :
  mirrored f →
  _update_status index st f =
    match items (data f) !! index with
    | Some cd =>
        (Normal (),
         {| session := session f;
            data := {| items := <[index := set_status st cd]> (items (data f));
                       disk := Some (json_dump (<[index := set_status st cd]>
                                                  (items (data f)))) |};
            workers := workers f; cellWidget := cellWidget f; threads := threads f |})
    | None => (Raise IndexError, f)
    end.
Proof.
  intros Hm. destruct f as [se [its dk] ws cw ths]. unfold mirrored in Hm.
  simpl in *.
  unfold _update_status, update_row, on_data, __setitem__, getitem,
    set_items, dump, set_status, bind, get, modify, pure, raise. simpl.
  destruct (its !! index) as [cd|] eqn:Hcd; simpl; [|done].
  assert (Hlt : index < length its) by (apply lookup_lt_is_Some; by eexists).
  rewrite decide_True by lia. simpl.
  destruct (<[index := _]> its) as [|x l] eqn:Hi.
  { apply (f_equal length) in Hi. rewrite length_insert in Hi. simpl in Hi. lia. }
  rewrite <- Hi. cbn [items data]. rewrite list_lookup_insert_eq by done.
  cbn [items data session workers cellWidget threads].
  by rewrite list_insert_insert_eq.
Qed.

(** X15: on a form with one table row for every task, a status emitted
    by a worker changes the [status] of the task at the worker's position,
    and nothing else, and writes the file; when that position is past the
    end of the list the slot raises [IndexError] and changes nothing. *)
Theorem status_signal_sets_one_status f h th st :
  threads f !! h = Some th → mirrored f →
  status_signal h st f =
    match items (data f) !! slot th with
    | Some cd =>
        (Normal (),
         {| session := session f;
            data := {| items := <[slot th := set_status st cd]> (items (data f));
                       disk := Some (json_dump (<[slot th := set_status st cd]>
                                                  (items (data f)))) |};
            workers := workers f; cellWidget := cellWidget f; threads := threads f |})
    | None => (Raise IndexError, f)
    end.
Proof.
  intros Hth Hm. unfold status_signal, bind, get. rewrite Hth.
  by apply _update_status_state.
Qed.

Lemma status_signal_sets_one_status_witness :
  let f := run_all [add A; add B; push_all] empty_board in
  status_signal 1 Workers.Connecting f =
    (Normal (),
     {| session := session f;
        data := {| items := [A; set_status Workers.Connecting B];
                   disk := Some (json_dump [A; set_status Workers.Connecting B]) |};
        workers := workers f; cellWidget := cellWidget f; threads := threads f |}).
Proof.
  apply (status_signal_sets_one_status (run_all [add A; add B; push_all] empty_board) 1
           {| worker := Workers.__init__ "r2.example.com" "no shutdown" true None;
              slot := 1; isRunning := true |});
    reflexivity.
Defined.



Lemma aborted_idemp th : aborted (aborted th) = aborted th.
Proof. unfold aborted. by destruct th as [w sl []]. Qed.

Lemma abort_if_running_state w f :
  abort_if_running w f =
    (Normal (),
     {| session := session f; data := data f; workers := workers f;
        cellWidget := cellWidget f;
        threads := match w with
                   | Some h => alter aborted h (threads f)
                   | None => threads f
                   end |}).
Proof.
  unfold abort_if_running, bind, get, set_threads, modify, pure.
  destruct w as [h|]; [|by destruct f].
  destruct (threads f !! h) as [th|] eqn:Hth.
  - unfold aborted at 1. destruct (isRunning th) eqn:Hr; simpl.
    + do 2 f_equal. apply list_eq. intros i. destruct (decide (i = h)) as [->|Hne].
      * rewrite list_lookup_insert_eq, list_lookup_alter_eq, Hth
          by (apply lookup_lt_is_Some; by eexists).
        simpl. unfold aborted. by rewrite Hr.
      * by rewrite list_lookup_insert_ne, list_lookup_alter_ne.
    + destruct f as [se d ws cw ths]. simpl in *. do 2 f_equal.
      apply list_eq. intros i. destruct (decide (i = h)) as [->|Hne].
      * rewrite list_lookup_alter_eq, Hth. simpl. unfold aborted. by rewrite Hr.
      * by rewrite list_lookup_alter_ne.
  - destruct f as [se d ws cw ths]. simpl in *. do 2 f_equal.
    apply list_eq. intros i. destruct (decide (i = h)) as [->|Hne].
    + by rewrite list_lookup_alter_eq, Hth.
    + by rewrite list_lookup_alter_ne.
Qed.

Lemma for_abort_if_running ws f :
  ∃ ths,
    for_ ws abort_if_running f =
      (Normal (),
       {| session := session f; data := data f; workers := workers f;
          cellWidget := cellWidget f; threads := ths |})
    ∧ ∀ h, ths !! h =
           (if bool_decide (Some h ∈ ws) then aborted else id) <$> threads f !! h.
Proof.
  revert f. induction ws as [|w ws IH]; intros f.
  - exists (threads f). split; [by destruct f|]. intros h.
    rewrite bool_decide_false by apply not_elem_of_nil. by destruct (threads f !! h).
  - cbn [for_]. unfold bind. rewrite abort_if_running_state.
    edestruct IH as (ths & -> & Hths). exists ths. split; [done|].
    intros h. rewrite Hths. simpl.
    destruct (decide (Some h = w)) as [<-|Hne].
    + rewrite (bool_decide_true (Some h ∈ Some h :: ws)) by (apply elem_of_cons; by left).
      rewrite list_lookup_alter_eq. destruct (threads f !! h) as [th|]; simpl; [|done].
      case_bool_decide; simpl; [by rewrite aborted_idemp|done].
    + assert (Hl : match w with
                   | Some h0 => alter aborted h0 (threads f)
                   | None => threads f
                   end !! h = threads f !! h).
      { destruct w as [h0|]; [|done]. apply list_lookup_alter_ne. congruence. }
      rewrite Hl. f_equal.
      assert (Hiff : Some h ∈ ws ↔ Some h ∈ w :: ws).
      { rewrite elem_of_cons. split; [by right|]. by intros [?|?]. }
      by rewrite (bool_decide_ext _ _ Hiff).
Qed.

(** X17: [abort_all] returns normally and touches the workers only: a
    worker gets [_abort_requested] set exactly when the handle list names
    it and its thread is running; finished workers and workers that are not
    in the handle list are left as they are. *)
Theorem abort_all_flags_the_running_workers f :
  ∃ ths,
    abort_all f =
      (Normal (),
       {| session := session f; data := data f; workers := workers f;
          cellWidget := cellWidget f; threads := ths |})
    ∧ ∀ h, ths !! h =
           (if bool_decide (Some h ∈ workers f) then aborted else id) <$> threads f !! h.
Proof. unfold abort_all, bind, get. apply for_abort_if_running. Qed.

(** ** What every event keeps *)





















(** ** The preview of a configuration *)

Lemma append_cons c s t : String c s +:+ t = String c (s +:+ t).
Proof. reflexivity. Qed.

Lemma append_nil t : EmptyString +:+ t = t.
Proof. reflexivity. Qed.

Lemma length_append s t :
  String.length (s +:+ t) = String.length s + String.length t.
Proof.
  induction s as [|c s IH]; [done|].
  rewrite append_cons. cbn [String.length]. by rewrite IH.
Qed.

Lemma contains_append c s t :
  contains c (s +:+ t) = contains c s || contains c t.
Proof.
  induction s as [|a s IH]; [done|].
  rewrite append_cons. cbn [contains]. by rewrite IH, orb_assoc.
Qed.

Lemma contains_replace_newline s : contains "010" (replace "010" "\n" s) = false.
Proof.
  induction s as [|a s IH]; [done|]. cbn [replace].
  destruct (Ascii.eqb a "010") eqn:Ha.
  - by rewrite !append_cons, append_nil.
  - cbn [contains]. by rewrite Ha.
Qed.

Lemma length_replace_newline s :
  String.length (replace "010" "\n" s) ≤ 2 * String.length s.
Proof.
  induction s as [|a s IH]; [done|]. cbn [replace].
  destruct (Ascii.eqb a "010").
  - rewrite !append_cons, append_nil. cbn [String.length]. lia.
  - cbn [String.length]. lia.
Qed.

Lemma replace_absent c new s : contains c s = false → replace c new s = s.
Proof.
  induction s as [|a s IH]; [done|]. cbn [contains replace].
  intros [Ha Hs]%orb_false_elim. rewrite Ha. by rewrite IH.
Qed.

Lemma contains_lstrip c s : contains c s = false → contains c (lstrip s) = false.
Proof.
  induction s as [|a s IH]; [done|]. cbn [lstrip]. destruct (isspace a); [|done].
  cbn [contains]. intros [_ Hs]%orb_false_elim. by apply IH.
Qed.

Lemma contains_rstrip c s : contains c s = false → contains c (rstrip s) = false.
Proof.
  induction s as [|a s IH]; [done|]. cbn [contains rstrip].
  intros [Ha Hs]%orb_false_elim. specialize (IH Hs).
  destruct (rstrip s) as [|b r].
  - destruct (isspace a); [done|]. cbn [contains]. by rewrite Ha.
  - cbn [contains] in *. by rewrite Ha, IH.
Qed.

Lemma length_lstrip s : String.length (lstrip s) ≤ String.length s.
Proof.
  induction s as [|a s IH]; [done|]. cbn [lstrip]. destruct (isspace a); [|done].
  cbn [String.length]. lia.
Qed.

Lemma length_rstrip s : String.length (rstrip s) ≤ String.length s.
Proof.
  induction s as [|a s IH]; [done|]. cbn [rstrip].
  destruct (rstrip s) as [|b r].
  - destruct (isspace a); cbn [String.length] in *; lia.
  - cbn [String.length] in *. lia.
Qed.

Lemma length_strip s : String.length (strip s) ≤ String.length s.
Proof.
  unfold strip. etrans; [apply length_lstrip|apply length_rstrip].
Qed.

Lemma length_slice_to n s : String.length (slice_to n s) ≤ n.
Proof.
  revert s. induction n as [|n IH]; intros [|a s]; cbn [slice_to String.length]; try lia.
  specialize (IH s). lia.
Qed.

Lemma length_slice_from n s :
  String.length (slice_from n s) = String.length s - n.
Proof.
  revert s. induction n as [|n IH]; intros [|a s]; cbn [slice_from String.length];
    try lia. apply IH.
Qed.

(** X19: the preview of a configuration contains no newline and has at
    most 268 characters; for a configuration of at most 120 characters
    without a newline it is the configuration stripped. *)
Theorem preview_is_one_short_line config_text :
  contains "010" (_get_config_preview config_text) = false
  ∧ String.length (_get_config_preview config_text) ≤ 268
  ∧ (String.length config_text ≤ 120 → contains "010" config_text = false →
     _get_config_preview config_text = strip config_text).
Proof.
  unfold _get_config_preview. repeat split.
  - unfold strip. apply contains_lstrip, contains_rstrip, contains_replace_newline.
  - etrans; [apply length_strip|]. etrans; [apply length_replace_newline|].
    destruct (120 <? String.length config_text) eqn:Hl.
    + rewrite !length_append. unfold slice_last. rewrite length_slice_from.
      pose proof (length_slice_to 60 config_text). cbn [String.length]. lia.
    + apply Nat.ltb_ge in Hl. lia.
  - intros Hl Hn. rewrite (proj2 (Nat.ltb_ge _ _)) by done.
    by rewrite replace_absent.
Qed.

Lemma preview_is_one_short_line_witness :
  _get_config_preview " no shutdown " = strip " no shutdown ".
Proof.
  apply (preview_is_one_short_line " no shutdown "); [vm_compute; lia|reflexivity].
Defined.

Lemma lstrip_idemp s : lstrip (lstrip s) = lstrip s.
Proof.
  induction s as [|a s IH]; [done|]. cbn [lstrip].
  destruct (isspace a) eqn:Ha; [done|]. cbn [lstrip]. by rewrite Ha.
Qed.

Lemma rstrip_cons a s :
  rstrip (String a s)
  = match rstrip s with
    | EmptyString => if isspace a then EmptyString else String a EmptyString
    | r => String a r
    end.
Proof. reflexivity. Qed.

Lemma rstrip_idemp s : rstrip (rstrip s) = rstrip s.
Proof.
  induction s as [|a s IH]; [done|]. rewrite rstrip_cons.
  destruct (rstrip s) as [|b r] eqn:Hr.
  - destruct (isspace a) eqn:Ha; [done|]. rewrite rstrip_cons. cbn [rstrip].
    by rewrite Ha.
  - rewrite rstrip_cons, IH. done.
Qed.

Lemma rstrip_lstrip s : rstrip (lstrip s) = lstrip (rstrip s).
Proof.
  induction s as [|a s IH]; [done|]. cbn [lstrip]. rewrite rstrip_cons.
  destruct (isspace a) eqn:Ha.
  - rewrite IH. destruct (rstrip s) as [|b r]; [done|]. cbn [lstrip]. by rewrite Ha.
  - rewrite rstrip_cons.
    destruct (rstrip s) as [|b r]; rewrite ?Ha; cbn [lstrip]; by rewrite Ha.
Qed.

Lemma strip_idemp s : strip (strip s) = strip s.
Proof.
  unfold strip. by rewrite rstrip_lstrip, rstrip_idemp, lstrip_idemp.
Qed.

Lemma contains_strip c s : contains c s = false → contains c (strip s) = false.
Proof. intros H. unfold strip. by apply contains_lstrip, contains_rstrip. Qed.

Lemma split_no_separator sep s :
  Forall (λ t, contains sep t = false) (split sep s).
Proof.
  induction s as [|a s IH]; [by repeat constructor|]. cbn [split].
  destruct (Ascii.eqb a sep) eqn:Ha; [by constructor|].
  destruct (split sep s) as [|w ws].
  { constructor; [|constructor]. cbn [contains]. by rewrite Ha. }
  inversion IH as [|?? Hw Hws]; subst. constructor; [|done].
  cbn [contains]. by rewrite Ha, Hw.
Qed.

Lemma leading_sublist (P : string → Prop) ts : Forall P ts → Forall P (leading ts).
Proof.
  induction 1 as [|t ts Ht Hts IH]; [constructor|]. cbn [leading].
  case_bool_decide; [constructor|by constructor].
Qed.

Lemma leading_non_empty ts : Forall (λ t, t ≠ EmptyString) (leading ts).
Proof.
  induction ts as [|t ts IH]; [constructor|]. cbn [leading].
  case_bool_decide; [constructor|by constructor].
Qed.

Lemma items_added new f : items (data (added new f)) = items (data f) ++ new.
Proof. destruct new; [by rewrite app_nil_r|done]. Qed.

(** X20: [accept] only appends to the list, and every task it appends
    has a target that is not empty, contains no comma and has no white
    space around it, the stripped text of the configuration field, which
    is not empty, [save] set and status [Pending]. *)
Theorem accept_stores_clean_tasks targets_text config_text f :
  ∃ new,
    items (data (accept targets_text config_text f).2) = items (data f) ++ new
    ∧ Forall (λ cd, target cd ≠ EmptyString
                    ∧ contains "," (target cd) = false
                    ∧ strip (target cd) = target cd
                    ∧ config cd = strip config_text
                    ∧ config cd ≠ EmptyString
                    ∧ save cd = true
                    ∧ status cd = Workers.Pending) new.
Proof.
  unfold accept, def, bind at 1.
  destruct (bool_decide (strip targets_text = EmptyString)) eqn:Ht.
  { exists []. by rewrite app_nil_r. }
  destruct (bool_decide (strip config_text = EmptyString)) eqn:Hcf.
  { exists []. by rewrite app_nil_r. }
  cbn [orb]. unfold pure at 1. apply bool_decide_eq_false in Hcf.
  destruct (accept_loop (strip config_text)
              (strip <$> split "," (strip targets_text)) f) as (r & -> & Hr).
  eexists. split.
  { destruct Hr as [-> | ->]; apply items_added. }
  apply Forall_fmap.
  assert (Hall : Forall (λ t, contains "," t = false ∧ strip t = t)
                   (strip <$> split "," (strip targets_text))).
  { apply Forall_fmap. eapply Forall_impl; [apply split_no_separator|].
    intros t Hc. simpl. split; [by apply contains_strip|apply strip_idemp]. }
  apply leading_sublist in Hall. pose proof (leading_non_empty
    (strip <$> split "," (strip targets_text))) as Hne.
  apply Forall_forall. intros t Hin.
  pose proof (proj1 (Forall_forall _ _) Hne t Hin).
  destruct (proj1 (Forall_forall _ _) Hall t Hin). simpl. by repeat split.
Qed.
